(** * Request-verification middleware of torus-metadata

    A shallow embedding of [src/middleware/index.ts]: the express
    middlewares that validate the shape of a signed request, its
    freshness and its signature, for one item and for batches.

    JavaScript values are JSON data; a middleware is a computation in a
    small state-and-exception monad whose store holds [res.locals], the
    number of clock readings and the trace of calls made to the
    collaborators.  What the file imports ([validateInput], [getError],
    the elliptic-curve library, the hash, the stable serializer) and what
    the runtime provides ([Date.now], [Buffer.from], string and number
    coercions) are variables of the section [Middleware]. *)

From Stdlib Require Import ZArith List String Ascii Bool Lia.
From Stdlib Require Import Permutation Sorted OrderedTypeEx.
From Stdlib Require Strings.Byte DecimalString.
From Bignums Require BigZ.BigZ.
Import ListNotations.

Set Warnings "-register-all".

Local Open Scope string_scope.
Local Open Scope Z_scope.
Local Open Scope list_scope.

(** ** JSON data as JavaScript values *)

(** Numbers are the integers (the only numbers the middlewares compute
    with are array indices and Unix seconds); [NaN] is the [None] of an
    [option Z] where a coercion can produce it.  Objects keep their keys
    in insertion order, as JavaScript does. *)
Inductive JSValue : Type :=
| JUndefined
| JNull
| JBool (b : bool)
| JNum (n : Z)
| JStr (s : string)
| JArr (items : list JSValue)
| JObj (fields : list (string * JSValue)).

Definition Obj := list (string * JSValue).

(** Own-property lookup [o[k]] on an object literal. *)
Fixpoint lookup (k : string) (o : Obj) : option JSValue :=
  match o with
  | [] => None
  | (k', v) :: o' => if String.eqb k k' then Some v else lookup k o'
  end.

(** The [in] operator on an object: [k in o]. *)
Definition has_key (k : string) (o : Obj) : bool :=
  match lookup k o with Some _ => true | None => false end.

(** Assignment [o.k = v]: an existing key keeps its place, a new key is
    appended. *)
Fixpoint obj_set (k : string) (v : JSValue) (o : Obj) : Obj :=
  match o with
  | [] => [(k, v)]
  | (k', v') :: o' =>
      if String.eqb k k' then (k', v) :: o' else (k', v') :: obj_set k v o'
  end.

(** Thrown values: an [Error] with its message and the [index] property
    that [validateLoopSignature] attaches to it. *)
Record Exn : Type := MkExn { exn_message : string; exn_index : JSValue }.

Definition TypeError (msg : string) : Exn := MkExn msg JUndefined.

Inductive Completion (A : Type) : Type :=
| Normal (a : A)
| Throw (e : Exn).
Arguments Normal {A} a.
Arguments Throw {A} e.

(** Canonical array index [String(i)]. *)
Fixpoint digits_of_pos (fuel : nat) (n : nat) (acc : string) : string :=
  match fuel with
  | O => acc
  | S fuel' =>
      let d := ascii_of_nat (48 + Nat.modulo n 10) in
      let acc' := String d acc in
      match Nat.div n 10 with
      | O => acc'
      | q => digits_of_pos fuel' q acc'
      end
  end.

Definition index_string (i : nat) : string := digits_of_pos (S i) i "".

Fixpoint array_get (k : string) (i : nat) (l : list JSValue) : option JSValue :=
  match l with
  | [] => None
  | x :: l' => if String.eqb k (index_string i) then Some x else array_get k (S i) l'
  end.

Fixpoint string_get (k : string) (i : nat) (s : string) : option JSValue :=
  match s with
  | EmptyString => None
  | String c s' =>
      if String.eqb k (index_string i) then Some (JStr (String c EmptyString))
      else string_get k (S i) s'
  end.

(** Property read [v[k]] (also what a destructuring pattern [{k} = v]
    does).  Reading from [undefined] or [null] throws; a missing property
    is [undefined].  Only own data properties are modelled: the names
    that objects inherit from their prototypes (methods) are not JSON
    data. *)
Definition get (v : JSValue) (k : string) : Completion JSValue :=
  match v with
  | JUndefined => Throw (TypeError "Cannot read properties of undefined")
  | JNull => Throw (TypeError "Cannot read properties of null")
  | JObj o => Normal (match lookup k o with Some x => x | None => JUndefined end)
  | JArr l =>
      if String.eqb k "length" then Normal (JNum (Z.of_nat (List.length l)))
      else Normal (match array_get k 0 l with Some x => x | None => JUndefined end)
  | JStr s =>
      if String.eqb k "length" then Normal (JNum (Z.of_nat (String.length s)))
      else Normal (match string_get k 0 s with Some x => x | None => JUndefined end)
  | JBool _ | JNum _ => Normal JUndefined
  end.

(** A destructuring default: [{ k: x = {} } = v]. *)
Definition or_empty_object (v : JSValue) : JSValue :=
  match v with JUndefined => JObj [] | _ => v end.

(** The [in] operator [k in v]: a [TypeError] unless [v] is an object. *)
Definition js_in (k : string) (v : JSValue) : Completion bool :=
  match v with
  | JObj o => Normal (has_key k o)
  | JArr l =>
      Normal (if String.eqb k "length" then true
              else match array_get k 0 l with Some _ => true | None => false end)
  | _ => Throw (TypeError "Cannot use 'in' operator")
  end.

Definition isArray (v : JSValue) : bool :=
  match v with JArr _ => true | _ => false end.

(** [a.entries()] for the [for ... of] loops: the pairs (index, element)
    of an array.  Every other JSON value has no callable [entries], so
    the call throws. *)
Fixpoint indexed (i : nat) (l : list JSValue) : list (nat * JSValue) :=
  match l with
  | [] => []
  | x :: l' => (i, x) :: indexed (S i) l'
  end.

Definition entries (v : JSValue) : Completion (list (nat * JSValue)) :=
  match v with
  | JArr l => Normal (indexed 0 l)
  | JUndefined => Throw (TypeError "Cannot read properties of undefined (reading 'entries')")
  | JNull => Throw (TypeError "Cannot read properties of null (reading 'entries')")
  | _ => Throw (TypeError "mainParamToTest.entries is not a function")
  end.

(** [["getOrSetNonce", "getNonce"].includes(data)] *)
Definition includes_nonce_command (data : JSValue) : bool :=
  match data with
  | JStr s => String.eqb s "getOrSetNonce" || String.eqb s "getNonce"
  | _ => false
  end.

(** ** [parseInt(s, 16)] *)

(** A string is a string of bytes: the text in UTF-8, as the literals of
    this file hold it.  The white space that [parseInt] skips is the
    [WhiteSpace] and [LineTerminator] of the language: U+0009 to U+000D,
    U+0020, U+00A0, U+1680, U+2000 to U+200A, U+2028, U+2029, U+202F,
    U+205F, U+3000 and U+FEFF.  The characters of one byte are those of
    [is_white_space]; U+00A0 is among them as the byte A0, which it is in
    a text of one byte per character, and no character of a UTF-8 text
    begins with that byte. *)
Definition is_white_space (c : ascii) : bool :=
  let n := nat_of_ascii c in
  (Nat.eqb n 9 || Nat.eqb n 10 || Nat.eqb n 11 || Nat.eqb n 12 ||
   Nat.eqb n 13 || Nat.eqb n 32 || Nat.eqb n 160)%bool.

(** U+00A0 in UTF-8: C2 A0. *)
Definition is_white_space_2 (c1 c2 : ascii) : bool :=
  (Nat.eqb (nat_of_ascii c1) 194 && Nat.eqb (nat_of_ascii c2) 160)%bool.

(** The white space of three bytes in UTF-8: U+1680 (E1 9A 80), U+2000
    to U+200A (E2 80 80 to E2 80 8A), U+2028 and U+2029 (E2 80 A8, E2 80
    A9), U+202F (E2 80 AF), U+205F (E2 81 9F), U+3000 (E3 80 80) and
    U+FEFF (EF BB BF). *)
Definition is_white_space_3 (c1 c2 c3 : ascii) : bool :=
  let b1 := nat_of_ascii c1 in
  let b2 := nat_of_ascii c2 in
  let b3 := nat_of_ascii c3 in
  ((Nat.eqb b1 225 && Nat.eqb b2 154 && Nat.eqb b3 128)
   || (Nat.eqb b1 226 && Nat.eqb b2 128
       && ((Nat.leb 128 b3 && Nat.leb b3 138)
           || Nat.eqb b3 168 || Nat.eqb b3 169 || Nat.eqb b3 175))
   || (Nat.eqb b1 226 && Nat.eqb b2 129 && Nat.eqb b3 159)
   || (Nat.eqb b1 227 && Nat.eqb b2 128 && Nat.eqb b3 128)
   || (Nat.eqb b1 239 && Nat.eqb b2 187 && Nat.eqb b3 191))%bool.

(** The string without its leading white space. *)
Fixpoint trim_start (s : string) : string :=
  match s with
  | EmptyString => EmptyString
  | String c1 s1 =>
      if is_white_space c1 then trim_start s1
      else
        match s1 with
        | EmptyString => s
        | String c2 s2 =>
            if is_white_space_2 c1 c2 then trim_start s2
            else
              match s2 with
              | EmptyString => s
              | String c3 s3 =>
                  if is_white_space_3 c1 c2 c3 then trim_start s3 else s
              end
        end
  end.

Definition hex_digit (c : ascii) : option Z :=
  let n := Z.of_nat (nat_of_ascii c) in
  if (48 <=? n) && (n <=? 57) then Some (n - 48)
  else if (97 <=? n) && (n <=? 102) then Some (n - 87)
  else if (65 <=? n) && (n <=? 70) then Some (n - 55)
  else None.

(** The longest prefix of radix-16 digits. *)
Fixpoint hex_digits (s : string) : list Z :=
  match s with
  | EmptyString => []
  | String c s' =>
      match hex_digit c with
      | Some d => d :: hex_digits s'
      | None => []
      end
  end.

Definition radix16_value (ds : list Z) : Z :=
  fold_left (fun acc d => 16 * acc + d) ds 0.

Definition strip_sign (s : string) : Z * string :=
  match s with
  | String "-" s' => (-1, s')
  | String "+" s' => (1, s')
  | _ => (1, s)
  end.

Definition strip_0x (s : string) : string :=
  match s with
  | String "0" (String "x" s') => s'
  | String "0" (String "X" s') => s'
  | _ => s
  end.

(** [parseInt(s, 16)] on a string: leading white space, a sign, an
    optional [0x], then the longest run of hexadecimal digits; [None] is
    [NaN].  The mathematical value is kept exact: the rounding to a
    double of a value beyond 2^53 does not change on which side of a
    32-bit quantity plus 60 it lies. *)
Definition parseInt16 (s : string) : option Z :=
  let (sign, s1) := strip_sign (trim_start s) in
  match hex_digits (strip_0x s1) with
  | [] => None
  | ds => Some (sign * radix16_value ds)
  end.

(** [~~x] on an integral number: ToInt32. *)
Definition toInt32 (z : Z) : Z := (z + 2 ^ 31) mod 2 ^ 32 - 2 ^ 31.

(** [~~(ms / 1000)] for a clock reading [ms] in milliseconds: the
    division truncated towards zero, then wrapped to 32 bits. *)
Definition seconds_of_ms (ms : Z) : Z := toInt32 (Z.quot ms 1000).

(** [nowSeconds - timeParsed > 60], false when [timeParsed] is [NaN]. *)
Definition stale (nowSeconds : Z) (timeParsed : option Z) : bool :=
  match timeParsed with
  | Some t => 60 <? nowSeconds - t
  | None => false
  end.

(** ** Buffers and hexadecimal strings *)

Definition hex_char (n : N) : ascii :=
  if (n <? 10)%N then ascii_of_N (48 + n) else ascii_of_N (87 + n).

(** [buf.toString("hex")] *)
Fixpoint toString_hex (bs : list Byte.byte) : string :=
  match bs with
  | [] => EmptyString
  | b :: bs' =>
      let n := Byte.to_N b in
      String (hex_char (n / 16)) (String (hex_char (n mod 16)) (toString_hex bs'))
  end.

Definition byte_of_nibbles (hi lo : Z) : Byte.byte :=
  match Byte.of_N (Z.to_N (16 * hi + lo)) with
  | Some b => b
  | None => Byte.x00
  end.

(** [Buffer.from(s, "hex")] on a string: pairs of digits, up to the
    first pair that is not hexadecimal. *)
Fixpoint from_hex (s : string) : list Byte.byte :=
  match s with
  | String c1 (String c2 s') =>
      match hex_digit c1, hex_digit c2 with
      | Some hi, Some lo => byte_of_nibbles hi lo :: from_hex s'
      | _, _ => []
      end
  | _ => []
  end.

(** [s.substring(a, b)] for [0 <= a <= b]. *)
Definition substring (a b : nat) (s : string) : string :=
  String.substring a (b - a) s.

(** ** Requests, responses and the effects of a middleware *)

Record Request : Type := MkRequest { body : JSValue; query : JSValue }.

(** What a middleware does with the request: call [next()] or send a
    response [res.status(status).json(json)]. *)
Inductive Outcome : Type :=
| Next
| Send (status : Z) (json : JSValue).

(** The arguments [elliptic.verify] is given at its call sites: a
    signature either as the pair of buffers [{ r, s }] or as the raw
    request value, a key either as the key pair built by
    [keyFromPublic] or as a buffer. *)
Inductive SigArg : Type :=
| SigRS (r s : list Byte.byte)
| SigRaw (v : JSValue).

Inductive Key : Type :=
| KeyPair (x y : JSValue)
| KeyBuffer (bytes : list Byte.byte).

(** Calls to the collaborators, in the order they are made. *)
Inductive Event : Type :=
| EvValidateInput (param : JSValue) (items : list string)
| EvDateNow
| EvVerify (msgHash : string) (sig : SigArg) (key : Key)
| EvLogError (label : string).

Record Store : Type := MkStore {
  locals : Obj;          (* res.locals *)
  reads : nat;           (* calls to Date.now() so far *)
  trace : list Event
}.

Definition init_store : Store := MkStore [] 0 [].

Definition M (A : Type) : Type := Store -> Completion A * Store.

Definition ret {A} (a : A) : M A := fun st => (Normal a, st).

Definition bind {A B} (m : M A) (k : A -> M B) : M B :=
  fun st =>
    match m st with
    | (Normal a, st') => k a st'
    | (Throw e, st') => (Throw e, st')
    end.

Definition lift {A} (c : Completion A) : M A := fun st => (c, st).

Definition emit (ev : Event) : M unit :=
  fun st => (Normal tt, MkStore (locals st) (reads st) (trace st ++ [ev])).

Definition set_local (k : string) (v : JSValue) : M unit :=
  fun st => (Normal tt, MkStore (obj_set k v (locals st)) (reads st) (trace st)).

(** [try { body } catch (error) { handler }] *)
Definition try_catch {A} (m : M A) (handler : Exn -> M A) : M A :=
  fun st =>
    match m st with
    | (Normal a, st') => (Normal a, st')
    | (Throw e, st') => handler e st'
    end.

Declare Scope js_scope.
Delimit Scope js_scope with js.
Notation "x <- c1 ;; c2" := (bind c1 (fun x => c2))
  (at level 100, c1 at next level, right associativity) : js_scope.
Notation "' pat <- c1 ;; c2" := (bind c1 (fun x => match x with pat => c2 end))
  (at level 100, pat pattern, c1 at next level, right associativity) : js_scope.
Notation "c1 ;;; c2" := (bind c1 (fun _ => c2))
  (at level 100, right associativity) : js_scope.
Local Open Scope js_scope.

(** [{ error: e, success: false }] *)
Definition failure (e : JSValue) : JSValue :=
  JObj [("error", e); ("success", JBool false)].

(** [{ error: e, status: 0 }] *)
Definition lock_failure (e : JSValue) : JSValue :=
  JObj [("error", e); ("status", JNum 0)].

Definition msg_too_old : string := "Message has been signed more than 60s ago".
Definition msg_invalid_signature : string := "Invalid signature".
Definition msg_nonce_command : string :=
  "Should be equal to 'getOrSetNonce' or 'getNonce'".

Definition must_be_an_array (key : string) : JSValue :=
  JObj [("message", JStr (key ++ " must be an array"))].

Definition js_index (index : nat) : JSValue := JNum (Z.of_nat index).

(** [error.index = index] *)
Definition exn_set_index (index : nat) (e : Exn) : Exn :=
  MkExn (exn_message e) (js_index index).

(** The verification stage a call belongs to: the structural validator,
    the clock read of the freshness test, the signature verifier. *)
Inductive Stage : Type := Structural | Freshness | Signature.

Definition stage_of (ev : Event) : option Stage :=
  match ev with
  | EvValidateInput _ _ => Some Structural
  | EvDateNow => Some Freshness
  | EvVerify _ _ _ => Some Signature
  | EvLogError _ => None
  end.

Fixpoint stages (t : list Event) : list Stage :=
  match t with
  | [] => []
  | ev :: t' =>
      match stage_of ev with
      | Some s => s :: stages t'
      | None => stages t'
      end
  end.



(** ** Collaborators outside the source file *)

Definition is_blank (v : option JSValue) : bool :=
  match v with
  | None | Some JUndefined | Some JNull | Some (JStr EmptyString) => true
  | Some _ => false
  end.

Fixpoint required_errors (payload : Obj) (requiredFields : list string) : Obj :=
  match requiredFields with
  | [] => []
  | f :: rest =>
      let errors := required_errors payload rest in
      if is_blank (lookup f payload)
      then (f, JStr (f ++ " is required")) :: errors
      else errors
  end.

(** Modelled from the spec: [validateInput] of [../validations], which
    is not among the sources.  Section 4.3: every required field must
    exist in the payload and be non-empty; a failing field [f] records
    [errors[f] = "<f> is required"], all fields are checked, and
    [isValid] holds exactly when [errors] is empty. *)
Definition validateInput_spec (payload : JSValue) (requiredFields : list string)
  : Completion (Obj * bool) :=
  let fields := match payload with JObj o => o | _ => [] end in
  let errors := required_errors fields requiredFields in
  Normal (errors, match errors with [] => true | _ => false end).

(** ** Canonical serialization *)

Definition double_quote : ascii := ascii_of_nat 34.
Definition backslash : ascii := ascii_of_nat 92.

Fixpoint escape (s : string) : string :=
  match s with
  | EmptyString => EmptyString
  | String c s' =>
      if Ascii.eqb c double_quote || Ascii.eqb c backslash
      then String backslash (String c (escape s'))
      else String c (escape s')
  end.

Definition quote (s : string) : string :=
  String double_quote (escape s ++ String double_quote EmptyString).

Fixpoint join (sep : string) (l : list string) : string :=
  match l with
  | [] => EmptyString
  | [x] => x
  | x :: l' => x ++ sep ++ join sep l'
  end.

(** Insertion sort of rendered fields by key, byte-wise ascending. *)
Fixpoint insert_field (x : string * string) (l : list (string * string))
  : list (string * string) :=
  match l with
  | [] => [x]
  | y :: l' =>
      if String.leb (fst x) (fst y) then x :: l else y :: insert_field x l'
  end.

Fixpoint sort_fields (l : list (string * string)) : list (string * string) :=
  match l with
  | [] => []
  | x :: l' => insert_field x (sort_fields l')
  end.

Definition render_field (kv : string * string) : string :=
  quote (fst kv) ++ ":" ++ snd kv.

Definition decimal (n : Z) : string :=
  DecimalString.NilZero.string_of_int (Z.to_int n).

Fixpoint canonical (v : JSValue) : string :=
  match v with
  | JUndefined | JNull => "null"
  | JBool true => "true"
  | JBool false => "false"
  | JNum n => decimal n
  | JStr s => quote s
  | JArr l => "[" ++ join "," (map canonical l) ++ "]"
  | JObj fs =>
      "{" ++ join "," (map render_field
                         (sort_fields
                            (map (fun kv => match kv with
                                            | (k, x) => (k, canonical x)
                                            end) fs))) ++ "}"
  end.

(** Modelled from the spec: [stringify] of the json-stable-stringify
    package, which is not among the sources.  Section 4.1: mappings are
    serialized with their keys sorted byte-wise ascending, arrays keep
    the order of their elements, scalars have one fixed textual
    encoding; a value that cannot be represented ([undefined]) has no
    serialization. *)
Definition stringify_spec (v : JSValue) : option string :=
  match v with
  | JUndefined => None
  | _ => Some (canonical v)
  end.

(** Every object has its keys once, at every depth: what a JavaScript
    object is. *)
Inductive well_formed : JSValue -> Prop :=
| wf_undefined : well_formed JUndefined
| wf_null : well_formed JNull
| wf_bool b : well_formed (JBool b)
| wf_num n : well_formed (JNum n)
| wf_str s : well_formed (JStr s)
| wf_arr l : Forall well_formed l -> well_formed (JArr l)
| wf_obj fs :
    NoDup (map fst fs) ->
    Forall (fun kv => well_formed (snd kv)) fs ->
    well_formed (JObj fs).

(** Deep equality as data: the same scalars, arrays equal element by
    element, objects with the same keys bound to equal values, whatever
    the order in which the keys were inserted. *)
Inductive same_data : JSValue -> JSValue -> Prop :=
| same_undefined : same_data JUndefined JUndefined
| same_null : same_data JNull JNull
| same_bool b : same_data (JBool b) (JBool b)
| same_num n : same_data (JNum n) (JNum n)
| same_str s : same_data (JStr s) (JStr s)
| same_arr l1 l2 :
    Forall2 same_data l1 l2 -> same_data (JArr l1) (JArr l2)
| same_obj fs1 fs2 reordered :
    Forall2 (fun a b => fst a = fst b /\ same_data (snd a) (snd b)) fs1 reordered ->
    Permutation reordered fs2 ->
    same_data (JObj fs1) (JObj fs2).


(** The rendered fields of an object, before they are sorted. *)
Definition rendered (fs : Obj) : list (string * string) :=
  map (fun kv => match kv with (k, x) => (k, canonical x) end) fs.

Definition key_lt (a b : string * string) : Prop :=
  String_as_OT.lt (fst a) (fst b).

(** A signed envelope: [{ pub_key_X, pub_key_Y, signature, set_data }]. *)
Definition signed_body (x y sg set_data : JSValue) : Obj :=
  [("pub_key_X", x); ("pub_key_Y", y); ("signature", sg); ("set_data", set_data)].

(** ** Stand-ins and example requests *)

(** The remaining collaborators, to run the middlewares on examples.
    The theorems of this file hold for every implementation; the
    examples run on what [keccak256] of js-sha3 and [elliptic.verify]
    compute: Keccak-256, and the verification of ECDSA over
    secp256k1. *)
Module Example.

Definition getError (e : Exn) : JSValue :=
  JObj [("message", JStr (exn_message e))].

(** 2023-11-14T22:13:20Z, at every reading. *)
Definition Date_now (_ : nat) : Z := 1700000000000.

Definition ToString (_ : JSValue) : string := "[object Object]".

Definition ToNumber (v : JSValue) : option Z :=
  match v with JNum n => Some n | _ => None end.

Definition keyFromPublic (x y : JSValue) : Completion Key :=
  Normal (KeyPair x y).

Definition byte_of_N (n : N) : Byte.byte :=
  match Byte.of_N (n mod 256) with Some b => b | None => Byte.x00 end.

(** *** Keccak-256 *)

Module Keccak.

(** A lane is a word of 64 bits; the state is the 25 lanes [A[x, y]], at
    the index [x + 5 * y]. *)
Definition lane_mask : N := (2 ^ 64 - 1)%N.

Definition rol (w : N) (k : N) : N :=
  N.lor (N.land (N.shiftl w k) lane_mask) (N.shiftr w (64 - k)).

Definition lane (A : list N) (x y : nat) : N :=
  nth (x mod 5 + 5 * y)%nat A 0%N.

Definition lanes (f : nat -> nat -> N) : list N :=
  map (fun i => f (i mod 5)%nat (i / 5)%nat) (seq 0 25).

Definition round_constants : list N :=
  [0x0000000000000001; 0x0000000000008082; 0x800000000000808a;
   0x8000000080008000; 0x000000000000808b; 0x0000000080000001;
   0x8000000080008081; 0x8000000000008009; 0x000000000000008a;
   0x0000000000000088; 0x0000000080008009; 0x000000008000000a;
   0x000000008000808b; 0x800000000000008b; 0x8000000000008089;
   0x8000000000008003; 0x8000000000008002; 0x8000000000000080;
   0x000000000000800a; 0x800000008000000a; 0x8000000080008081;
   0x8000000000008080; 0x0000000080000001; 0x8000000080008008]%N.

(** The rotation offsets, at the index [x + 5 * y]. *)
Definition rotation_offsets : list N :=
  [0; 1; 62; 28; 27;
   36; 44; 6; 55; 20;
   3; 10; 43; 25; 39;
   41; 45; 15; 21; 8;
   18; 2; 61; 56; 14]%N.

Definition theta (A : list N) : list N :=
  let C x :=
    N.lxor (lane A x 0)
      (N.lxor (lane A x 1) (N.lxor (lane A x 2) (N.lxor (lane A x 3) (lane A x 4)))) in
  let D x := N.lxor (C (x + 4)%nat) (rol (C (x + 1)%nat) 1) in
  lanes (fun x y => N.lxor (lane A x y) (D x)).

(** The lane [(x, y)] after the steps rho and pi is the rotated lane
    [(x + 3 * y, x)]. *)
Definition rho_pi (A : list N) : list N :=
  lanes (fun x y =>
           let x' := ((x + 3 * y) mod 5)%nat in
           rol (lane A x' x) (nth (x' + 5 * x)%nat rotation_offsets 0%N)).

Definition chi (A : list N) : list N :=
  lanes (fun x y =>
           N.lxor (lane A x y) (N.ldiff (lane A (x + 2) y) (lane A (x + 1) y))).

Definition iota (rc : N) (A : list N) : list N :=
  match A with
  | a :: A' => N.lxor a rc :: A'
  | [] => []
  end.

Definition keccak_f (A : list N) : list N :=
  fold_left (fun A rc => iota rc (chi (rho_pi (theta A)))) round_constants A.

(** The rate of Keccak-256, in bytes. *)
Definition rate : nat := 136.

(** The padding: the byte 01, zeros, and the top bit of the last byte of
    the block. *)
Definition pad (msg : list N) : list N :=
  match (rate - List.length msg mod rate)%nat with
  | 1%nat => msg ++ [0x81%N]
  | k => msg ++ [1%N] ++ repeat 0%N (k - 2) ++ [0x80%N]
  end.

Fixpoint lane_of_bytes (bs : list N) : N :=
  match bs with
  | [] => 0
  | b :: bs' => (b + 256 * lane_of_bytes bs')%N
  end.

Fixpoint lanes_of_bytes (fuel : nat) (bs : list N) : list N :=
  match fuel, bs with
  | S fuel', _ :: _ => lane_of_bytes (firstn 8 bs) :: lanes_of_bytes fuel' (skipn 8 bs)
  | _, _ => []
  end.

Fixpoint xor_lanes (A B : list N) : list N :=
  match A, B with
  | a :: A', b :: B' => N.lxor a b :: xor_lanes A' B'
  | _, [] => A
  | [], _ => []
  end.

Fixpoint absorb (fuel : nat) (bs : list N) (A : list N) : list N :=
  match fuel, bs with
  | S fuel', _ :: _ =>
      absorb fuel' (skipn rate bs)
        (keccak_f (xor_lanes A (lanes_of_bytes rate (firstn rate bs))))
  | _, _ => A
  end.

Fixpoint bytes_of_lane (k : nat) (w : N) : list N :=
  match k with
  | O => []
  | S k' => (w mod 256)%N :: bytes_of_lane k' (w / 256)%N
  end.

Definition digest (msg : list N) : list N :=
  let padded := pad msg in
  flat_map (bytes_of_lane 8)
    (firstn 4 (absorb (List.length padded) padded (repeat 0%N 25))).

End Keccak.

(** [keccak256] of js-sha3 on a string: the Keccak-256 digest of its
    bytes, in hexadecimal. *)
Definition keccak256 (s : string) : string :=
  toString_hex
    (map byte_of_N (Keccak.digest (map N_of_ascii (list_ascii_of_string s)))).

(** *** ECDSA over secp256k1 *)

Module Secp256k1.

Definition big : Type := BigZ.BigZ.t.

Declare Scope big_scope.
Delimit Scope big_scope with big.
Bind Scope big_scope with big.
#[local] Infix "+" := BigZ.BigZ.add : big_scope.
#[local] Infix "-" := BigZ.BigZ.sub : big_scope.
#[local] Infix "*" := BigZ.BigZ.mul : big_scope.
#[local] Infix "mod" := BigZ.BigZ.modulo : big_scope.
#[local] Infix "=?" := BigZ.BigZ.eqb : big_scope.
#[local] Infix "<?" := BigZ.BigZ.ltb : big_scope.
#[local] Infix "<=?" := BigZ.BigZ.leb : big_scope.

Definition big_of (z : Z) : big := BigZ.BigZ.of_Z z.

(** The field, the order of the group and the generator of the curve
    [y^2 = x^3 + 7]. *)
Definition p : big := big_of (2 ^ 256 - 2 ^ 32 - 977).
Definition n : big :=
  big_of 0xfffffffffffffffffffffffffffffffebaaedce6af48a03bbfd25e8cd0364141.
Definition G : big * big :=
  (big_of 0x79be667ef9dcbbac55a06295ce870b07029bfcdb2dce28d959f2815b16f81798,
   big_of 0x483ada7726a3c4655da4fbfc0e1108a8fd17b448a68554199c47d08ffb10d4b8).

Definition zero : big := big_of 0.
Definition one : big := big_of 1.
Definition two : big := big_of 2.
Definition three : big := big_of 3.
Definition seven : big := big_of 7.
Definition eight : big := big_of 8.

Local Open Scope big_scope.

(** The inverse modulo [m], by the extended algorithm of Euclid: [a] is
    congruent to [x0] times the number to invert, [b] to [x1] times
    it. *)
Fixpoint inverse_loop (fuel : nat) (a b x0 x1 : big) : big :=
  match fuel with
  | O => x0
  | S fuel' =>
      if b =? zero then x0
      else
        let (q, r) := BigZ.BigZ.div_eucl a b in
        inverse_loop fuel' b r x1 (x0 - q * x1)
  end.

Definition inverse (a m : big) : big :=
  inverse_loop 1024 (a mod m) m one zero mod m.

(** [b ^ e] in the field. *)
Fixpoint power (b : big) (e : positive) : big :=
  match e with
  | xH => b mod p
  | xO e' => let h := power b e' in h * h mod p
  | xI e' => let h := power b e' in h * h mod p * b mod p
  end.

(** A point in Jacobian coordinates: [(X, Y, Z)] is the point
    [(X / Z^2, Y / Z^3)], the point at infinity when [Z] is zero. *)
Definition Jacobian : Type := big * big * big.

Definition infinity : Jacobian := (one, one, zero).

Definition double (P : Jacobian) : Jacobian :=
  let '(x, y, z) := P in
  if (z =? zero) || (y =? zero) then infinity
  else
    let a := x * x mod p in
    let b := y * y mod p in
    let c := b * b mod p in
    let d := two * ((x + b) * (x + b) - a - c) mod p in
    let e := three * a mod p in
    let x3 := (e * e - two * d) mod p in
    (x3, (e * (d - x3) - eight * c) mod p, two * y * z mod p).

Definition add (P Q : Jacobian) : Jacobian :=
  let '(x1, y1, z1) := P in
  let '(x2, y2, z2) := Q in
  if z1 =? zero then Q
  else if z2 =? zero then P
  else
    let z1z1 := z1 * z1 mod p in
    let z2z2 := z2 * z2 mod p in
    let u1 := x1 * z2z2 mod p in
    let u2 := x2 * z1z1 mod p in
    let s1 := y1 * z2 mod p * z2z2 mod p in
    let s2 := y2 * z1 mod p * z1z1 mod p in
    if u1 =? u2 then (if s1 =? s2 then double P else infinity)
    else
      let h := (u2 - u1) mod p in
      let r := (s2 - s1) mod p in
      let hh := h * h mod p in
      let hhh := h * hh mod p in
      let v := u1 * hh mod p in
      let x3 := (r * r - hhh - two * v) mod p in
      (x3, (r * (v - x3) - s1 * hhh) mod p, z1 * z2 mod p * h mod p).

Fixpoint mul_pos (k : positive) (P : Jacobian) : Jacobian :=
  match k with
  | xH => P
  | xO k' => double (mul_pos k' P)
  | xI k' => add P (double (mul_pos k' P))
  end.

Definition mul (k : big) (P : Jacobian) : Jacobian :=
  match BigZ.BigZ.to_Z k with
  | Zpos k' => mul_pos k' P
  | _ => infinity
  end.

Definition of_affine (P : big * big) : Jacobian := (fst P, snd P, one).

Definition to_affine (P : Jacobian) : option (big * big) :=
  let '(x, y, z) := P in
  if z =? zero then None
  else
    let zi := inverse z p in
    let zi2 := zi * zi mod p in
    Some (x * zi2 mod p, y * zi2 mod p * zi mod p).

(** [pointFromX]: the point of abscissa [x] whose ordinate has the
    parity asked for, when there is one. *)
Definition pointFromX (x : Z) (odd : bool) : option (Z * Z) :=
  let x' := big_of x mod p in
  let y2 := (x' * x' mod p * x' + seven) mod p in
  let y := power y2 (Z.to_pos ((2 ^ 256 - 2 ^ 32 - 977 + 1) / 4)) in
  if y * y mod p =? y2 then
    let y := BigZ.BigZ.to_Z y in
    Some (BigZ.BigZ.to_Z x',
          if Bool.eqb (Z.odd y) odd then y else (2 ^ 256 - 2 ^ 32 - 977 - y)%Z)
  else None.

(** The verification of [EC.prototype.verify] on numbers: the digest
    [z], the signature [(r, s)] and the key [Q], a point of the
    curve. *)
Definition ecdsa_verify (z r s : Z) (Q : Z * Z) : bool :=
  let r := big_of r in
  let s := big_of s in
  if (r <? one) || (n <=? r) || (s <? one) || (n <=? s) then false
  else
    let z := big_of z in
    let z := if n <=? z then z - n else z in
    let sinv := inverse s n in
    let u1 := sinv * z mod n in
    let u2 := sinv * r mod n in
    match to_affine (add (mul u1 (of_affine G))
                         (mul u2 (of_affine (big_of (fst Q), big_of (snd Q))))) with
    | None => false
    | Some (x, _) => x mod n =? r
    end.

End Secp256k1.

(** [new BN(s, 16)] on a string of hexadecimal digits. *)
Fixpoint hex_value_from (acc : Z) (s : string) : option Z :=
  match s with
  | EmptyString => Some acc
  | String c s' =>
      match hex_digit c with
      | Some d => hex_value_from (16 * acc + d) s'
      | None => None
      end
  end.

Definition hex_value (s : string) : option Z := hex_value_from 0 s.

(** [new BN(buf)]: the bytes as a number, the first byte the most
    significant. *)
Definition bytes_value (bs : list Byte.byte) : Z :=
  fold_left (fun acc b => 256 * acc + Z.of_N (Byte.to_N b)) bs 0.

(** The point of a key.  [{ x, y }] with hexadecimal coordinates is the
    point itself.  A buffer is read by [decodePoint]: the byte 04 and
    the two coordinates (06 and 07 too, when the parity of the ordinate
    is the one they announce), or the byte 02 or 03 and the abscissa;
    anything else is an unknown point format. *)
Definition decodePoint (bs : list Byte.byte) : Completion (Z * Z) :=
  match bs with
  | [] => Throw (MkExn "Unknown point format" JUndefined)
  | b :: rest =>
      let tag := Byte.to_N b in
      let len := List.length rest in
      if ((tag =? 4) || (tag =? 6) || (tag =? 7))%N && Nat.eqb len 64 then
        let x := bytes_value (firstn 32 rest) in
        let y := bytes_value (skipn 32 rest) in
        if ((tag =? 6)%N && Z.odd y) || ((tag =? 7)%N && Z.even y)
        then Throw (MkExn "Assertion failed" JUndefined)
        else Normal (x, y)
      else if ((tag =? 2) || (tag =? 3))%N && Nat.eqb len 32 then
        match Secp256k1.pointFromX (bytes_value rest) (tag =? 3)%N with
        | Some P => Normal P
        | None => Throw (MkExn "invalid point" JUndefined)
        end
      else Throw (MkExn "Unknown point format" JUndefined)
  end.

Definition key_point (key : Key) : Completion (Z * Z) :=
  match key with
  | KeyPair (JStr x) (JStr y) =>
      match hex_value x, hex_value y with
      | Some x', Some y' => Normal (x', y')
      | _, _ => Throw (MkExn "Invalid character" JUndefined)
      end
  | KeyPair _ _ => Throw (MkExn "Unknown point format" JUndefined)
  | KeyBuffer bs => decodePoint bs
  end.

(** The numbers of a signature: the two buffers of [{ r, s }], or the
    properties [r] and [s] of an object of the request, non-empty
    strings of hexadecimal digits.  (The library reads a signature in
    DER as well; the examples have none.) *)
Definition signature_numbers (sig : SigArg) : Completion (Z * Z) :=
  match sig with
  | SigRS r s => Normal (bytes_value r, bytes_value s)
  | SigRaw (JObj o) =>
      match lookup "r" o, lookup "s" o with
      | Some (JStr (String c1 r)), Some (JStr (String c2 s)) =>
          match hex_value (String c1 r), hex_value (String c2 s) with
          | Some r', Some s' => Normal (r', s')
          | _, _ => Throw (MkExn "Invalid character" JUndefined)
          end
      | _, _ => Throw (MkExn "Signature without r or s" JUndefined)
      end
  | SigRaw _ => Throw (MkExn "Signature without r or s" JUndefined)
  end.

(** [elliptic.verify(msgHash, signature, key)]: the key is decoded, then
    the signature, and the signature is verified on the digest. *)
Definition verify (msgHash : string) (sig : SigArg) (key : Key) : Completion bool :=
  match key_point key with
  | Throw e => Throw e
  | Normal Q =>
      match signature_numbers sig with
      | Throw e => Throw e
      | Normal (r, s) =>
          let z := match hex_value msgHash with Some z => z | None => 0 end in
          Normal (Secp256k1.ecdsa_verify z r s Q)
      end
  end.

Definition Buffer_from_other (_ : JSValue) : Completion (list Byte.byte) :=
  Throw (TypeError "The first argument must be of type string")%string.

Definition base64_value (c : ascii) : option N :=
  let n := N_of_ascii c in
  if ((65 <=? n) && (n <=? 90))%N then Some (n - 65)%N
  else if ((97 <=? n) && (n <=? 122))%N then Some (n - 71)%N
  else if ((48 <=? n) && (n <=? 57))%N then Some (n + 4)%N
  else if (n =? 43)%N then Some 62%N
  else if (n =? 47)%N then Some 63%N
  else None.

(** Base64 decoding of the standard alphabet, four characters at a
    time, up to the padding. *)
Fixpoint base64_decode (s : string) : list Byte.byte :=
  match s with
  | String c1 (String c2 (String c3 (String c4 s'))) =>
      match base64_value c1, base64_value c2, base64_value c3, base64_value c4 with
      | Some a, Some b, Some c, Some d =>
          byte_of_N (a * 4 + b / 16) :: byte_of_N (b * 16 + c / 4)
            :: byte_of_N (c * 64 + d) :: base64_decode s'
      | Some a, Some b, Some c, None =>
          [byte_of_N (a * 4 + b / 16); byte_of_N (b * 16 + c / 4)]
      | Some a, Some b, None, _ => [byte_of_N (a * 4 + b / 16)]
      | _, _, _, _ => []
      end
  | _ => []
  end.

(** The coordinates of the generator of secp256k1. *)
Definition pub_key_X : JSValue :=
  JStr "79be667ef9dcbbac55a06295ce870b07029bfcdb2dce28d959f2815b16f81798".
Definition pub_key_Y : JSValue :=
  JStr "483ada7726a3c4655da4fbfc0e1108a8fd17b448a68554199c47d08ffb10d4b8".

(** The server clock reads 1700000000 s = 0x6553f100: the timestamp
    [6553f0c4] is 60 s old, [6553f0c3] is 61 s old. *)
Definition set_data_of (data timestamp : string) : JSValue :=
  JObj [("data", JStr data); ("timestamp", JStr timestamp)].

(** 63 and 64 zero bytes, in base64. *)
Definition zeros_63 : string :=
  "AAAAAAAAAAAAAAAAAAAAAAAAAAAAAAAAAAAAAAAAAAAAAAAAAAAAAAAAAAAAAAAAAAAAAAAAAAAAAAAAAAAA".
Definition zeros_64 : string := zeros_63 ++ "AA==".

Definition request (o : Obj) : Request := MkRequest (JObj o) (JObj []).

(** A V2 request without signature. *)
Definition unsigned_body : Obj :=
  [("pub_key_X", pub_key_X); ("pub_key_Y", pub_key_Y);
   ("set_data", set_data_of "getNonce" "6553f0c4")].

(** Signed V2 requests: a nonce command and another command, both 60 s
    old, under a 64-byte signature; the nonce command under a 63-byte
    signature. *)
Definition nonce_body : Obj :=
  signed_body pub_key_X pub_key_Y (JStr zeros_64) (set_data_of "getNonce" "6553f0c4").
Definition hello_body : Obj :=
  signed_body pub_key_X pub_key_Y (JStr zeros_64) (set_data_of "hello" "6553f0c4").
Definition short_signature_body : Obj :=
  signed_body pub_key_X pub_key_Y (JStr zeros_63) (set_data_of "getNonce" "6553f0c4").

(** A lock request made 10 s before the clock reading, signed with the
    key [lock_key]: [lock_signature] is a signature of the Keccak-256
    digest of the text of [lock_data]. *)
Definition lock_key : string :=
  "04a902df4606c7a7e5f4d984b87a8d3da4073e26b51648b1094523bc7738235e54274ad4eec5a196ba36fce8a034bc21067fa514612107fb4868d56d1a1a14e511".
Definition lock_key_bytes : list Byte.byte := from_hex lock_key.
Definition lock_data : JSValue := JObj [("timeStamp", JNum 1699999990)].
Definition lock_signature : JSValue :=
  JObj [("r", JStr "1fbf61b0487142878df4f84adfa7356b3a9936e90a50cdfdca5ad9de594fe524");
        ("s", JStr "da96343dd0577aaef6432338cb65e5a1dce769b7b12180f685ea921f07eb3b4e")].
Definition lock_body : Obj :=
  [("key", JStr lock_key); ("signature", lock_signature); ("data", lock_data)].

(** A lock request made 61 s before the clock reading, signed with the
    same key. *)
Definition stale_lock_data : JSValue := JObj [("timeStamp", JNum 1699999939)].
Definition stale_lock_signature : JSValue :=
  JObj [("r", JStr "ed6640086dde7e880d5692f713c80b5cdf4720193fe8d44396470dd79765cbdb");
        ("s", JStr "98ac77aa86bf179ea2c2bc557b71c7b75b44a8ecfb814b7422288f4830537330")].
Definition stale_lock_body : Obj :=
  [("key", JStr lock_key); ("signature", stale_lock_signature);
   ("data", stale_lock_data)].

(** A batch of two items under the key [shares]: the first fresh, the
    second stale. *)
Definition batch_fresh_then_stale : Obj :=
  [("shares", JArr [JObj [("set_data", set_data_of "a" "6553f0c4")];
                    JObj [("set_data", set_data_of "b" "6553f0c3")]])].

(** A verifier that accepts, for the requests whose signature is taken
    to be genuine. *)
Definition verify_genuine (_ : string) (_ : SigArg) (_ : Key) : Completion bool :=
  Normal true.

(** A stand-in for [getDBTableName]: no namespace is the default table,
    a non-empty name is its own table, anything else is refused. *)
Definition getDBTableName (namespace : JSValue) : Completion JSValue :=
  match namespace with
  | JUndefined => Normal (JStr "data")
  | JStr EmptyString => Throw (MkExn "Invalid namespace" JUndefined)
  | JStr name => Normal (JStr name)
  | _ => Throw (MkExn "Invalid namespace" JUndefined)
  end.

(** Items of batches: a fresh and a stale metadata item, an item without
    timestamp, items with a namespace. *)
Definition fresh_item : JSValue := JObj [("set_data", set_data_of "a" "6553f0c4")].
Definition stale_item : JSValue := JObj [("set_data", set_data_of "b" "6553f0c3")].
Definition untimed_item : JSValue :=
  JObj [("set_data", JObj [("data", JStr "c")])].
Definition tkey_item : JSValue :=
  JObj [("namespace", JStr "tkey"); ("tableName", JStr "users")].
Definition plain_item : JSValue := JObj [("pub_key_X", pub_key_X)].
Definition unnamed_item : JSValue := JObj [("namespace", JStr "")].

Definition batch (items : list JSValue) : Request :=
  request [("shares", JArr items)].

(** A lock request whose signature is the signature of another request:
    the data of the stale request under the signature of [lock_data]. *)
Definition forged_lock_body : Obj :=
  [("key", JStr lock_key); ("signature", lock_signature);
   ("data", stale_lock_data)].

End Example.

(** ** The middlewares *)

Section Middleware.

(** [validateInput] of [../validations]: the errors object and the
    verdict, or an exception. *)
Variable validateInput : JSValue -> list string -> Completion (Obj * bool).
(** [getError] of [../utils]. *)
Variable getError : Exn -> JSValue.
(** [Date.now()]: the reading of the clock at its n-th call, in
    milliseconds. *)
Variable Date_now : nat -> Z.
(** The coercions of the language on values that are not strings
    ([String(v)]) and to numbers ([Number(v)], [None] for [NaN]). *)
Variable ToString : JSValue -> string.
Variable ToNumber : JSValue -> option Z.
(** [elliptic.keyFromPublic({ x, y }, "hex")] and
    [elliptic.verify(msgHash, signature, key)]. *)
Variable keyFromPublic : JSValue -> JSValue -> Completion Key.
Variable verify : string -> SigArg -> Key -> Completion bool.
(** [Buffer.from(s, "base64")] on a string, and [Buffer.from(v, enc)]
    on a value that is not a string. *)
Variable base64_decode : string -> list Byte.byte.
Variable Buffer_from_other : JSValue -> Completion (list Byte.byte).
(** [stringify] of json-stable-stringify ([None] is [undefined]) and
    [keccak256] of js-sha3 on a string. *)
Variable stringify : JSValue -> option string.
Variable keccak256 : string -> string.

Definition Buffer_from_base64 (v : JSValue) : Completion (list Byte.byte) :=
  match v with
  | JStr s => Normal (base64_decode s)
  | _ => Buffer_from_other v
  end.

Definition Buffer_from_hex (v : JSValue) : Completion (list Byte.byte) :=
  match v with
  | JStr s => Normal (from_hex s)
  | _ => Buffer_from_other v
  end.

(** [keccak256(stringify(v))]: the hash refuses [undefined]. *)
Definition keccak256_stringify (v : JSValue) : Completion string :=
  match stringify v with
  | Some s => Normal (keccak256 s)
  | None => Throw (MkExn "input is invalid type" JUndefined)
  end.

(** [parseInt(v, 16)] *)
Definition parseInt (v : JSValue) : option Z :=
  parseInt16 (match v with JStr s => s | _ => ToString v end).

Definition Date_now_call : M Z :=
  fun st =>
    (Normal (Date_now (reads st)),
     MkStore (locals st) (S (reads st)) (trace st ++ [EvDateNow])).

(** [~~(Date.now() / 1000) - timeParsed > 60] *)
Definition signed_more_than_60s_ago (timeParsed : option Z) : M bool :=
  ms <- Date_now_call ;;
  ret (stale (seconds_of_ms ms) timeParsed).

Definition call_validateInput (param : JSValue) (items : list string)
  : M (Obj * bool) :=
  emit (EvValidateInput param items) ;;;
  lift (validateInput param items).

Definition log_error (label : string) : M unit := emit (EvLogError label).

(** *** validationMiddleware (lines 13-26) *)
Definition validationMiddleware (items : list string) (isBody : bool)
    (req : Request) : M Outcome :=
  try_catch
    ('(errors, isValid) <-
        call_validateInput (if isBody then body req else query req) items ;;
     if negb isValid then ret (Send 400 (failure (JObj errors)))
     else ret Next)
    (fun error =>
       log_error "validationMiddleware internal error" ;;;
       ret (Send 500 (failure (getError error)))).

(** *** validationLoopMiddleware (lines 28-49) *)

(** The [for ... of] loop of lines 37-43; [Some] is a [return] from
    inside the loop. *)
Fixpoint validationLoop_items (items : list string)
    (es : list (nat * JSValue)) : M (option Outcome) :=
  match es with
  | [] => ret None
  | (index, param) :: es' =>
      '(errors, isValid) <- call_validateInput param items ;;
      if negb isValid then
        ret (Some (Send 400 (failure (JObj (obj_set "index" (js_index index) errors)))))
      else validationLoop_items items es'
  end.

Definition validationLoopMiddleware (items : list string) (key : string)
    (isBody : bool) (req : Request) : M Outcome :=
  try_catch
    (let paramsObject := if isBody then body req else query req in
     mainParamToTest <- lift (get paramsObject key) ;;
     if negb (isArray mainParamToTest) then
       ret (Send 400 (failure (must_be_an_array key)))
     else
       es <- lift (entries mainParamToTest) ;;
       r <- validationLoop_items items es ;;
       match r with
       | Some out => ret out
       | None => ret Next
       end)
    (fun error =>
       log_error "validationLoopMiddleware internal error" ;;;
       ret (Send 500 (failure (getError error)))).

(** *** validateMetadataInput (lines 51-64) *)
Definition validateMetadataInput (req : Request) : M Outcome :=
  set_data <- lift (get (body req) "set_data") ;;
  let setData := or_empty_object set_data in
  '(errors, isValid) <- call_validateInput setData ["data"; "timestamp"] ;;
  if negb isValid then ret (Send 400 (failure (JObj errors)))
  else
    timestamp <- lift (get setData "timestamp") ;;
    let timeParsed := parseInt timestamp in
    old <- signed_more_than_60s_ago timeParsed ;;
    if old then
      ret (Send 403 (failure (JObj (obj_set "timestamp" (JStr msg_too_old) errors))))
    else ret Next.

(** *** validateMetadataLoopInput (lines 66-89) *)
Fixpoint validateMetadataLoop_items (es : list (nat * JSValue))
  : M (option Outcome) :=
  match es with
  | [] => ret None
  | (index, param) :: es' =>
      set_data <- lift (get param "set_data") ;;
      let setData := or_empty_object set_data in
      '(errors, isValid) <- call_validateInput setData ["data"; "timestamp"] ;;
      if negb isValid then
        ret (Some (Send 400 (failure (JObj (obj_set "index" (js_index index) errors)))))
      else
        timestamp <- lift (get setData "timestamp") ;;
        let timeParsed := parseInt timestamp in
        old <- signed_more_than_60s_ago timeParsed ;;
        if old then
          ret (Some (Send 403
                 (failure (JObj (obj_set "timestamp" (JStr msg_too_old) errors)))))
        else validateMetadataLoop_items es'
  end.

Definition validateMetadataLoopInput (key : string) (isBody : bool)
    (req : Request) : M Outcome :=
  let paramsObject := if isBody then body req else query req in
  mainParamToTest <- lift (get paramsObject key) ;;
  es <- lift (entries mainParamToTest) ;;
  r <- validateMetadataLoop_items es ;;
  match r with
  | Some out => ret out
  | None => ret Next
  end.

(** *** The signature check

    Lines 93-100 of [validateSignature]; the same statements are
    written again at lines 123-130 ([validateLoopSignature]) and
    227-234 ([validateGetOrSetNonceSignature]). *)
Definition split_signature (buf : list Byte.byte) : SigArg :=
  let decodedSignature := toString_hex buf in
  SigRS (from_hex (substring 0 64 decodedSignature))
        (from_hex (substring 64 128 decodedSignature)).

Definition isValidSignature (param : JSValue) : M bool :=
  pubKeyX <- lift (get param "pub_key_X") ;;
  pubKeyY <- lift (get param "pub_key_Y") ;;
  signature <- lift (get param "signature") ;;
  setData <- lift (get param "set_data") ;;
  pubKey <- lift (keyFromPublic pubKeyX pubKeyY) ;;
  buf <- lift (Buffer_from_base64 signature) ;;
  let ecSignature := split_signature buf in
  msgHash <- lift (keccak256_stringify setData) ;;
  emit (EvVerify msgHash ecSignature pubKey) ;;;
  lift (verify msgHash ecSignature pubKey).

(** *** validateSignature (lines 91-111) *)
Definition validateSignature (req : Request) : M Outcome :=
  try_catch
    (ok <- isValidSignature (body req) ;;
     if negb ok then
       ret (Send 403 (failure (JObj [("signature", JStr msg_invalid_signature)])))
     else ret Next)
    (fun error =>
       log_error "signature verification failed" ;;;
       ret (Send 500 (failure (getError error)))).

(** *** validateLoopSignature (lines 113-142) *)
Fixpoint validateLoopSignature_items (es : list (nat * JSValue))
  : M (option Outcome) :=
  match es with
  | [] => ret None
  | (index, param) :: es' =>
      r <- try_catch
             (ok <- isValidSignature param ;;
              if negb ok then
                ret (Some (Send 403 (failure
                   (JObj [("index", js_index index);
                          ("signature", JStr msg_invalid_signature)]))))
              else ret None)
             (fun error =>
                let error' := exn_set_index index error in
                log_error "signature verification failed" ;;;
                ret (Some (Send 500 (failure (getError error'))))) ;;
      match r with
      | Some out => ret (Some out)
      | None => validateLoopSignature_items es'
      end
  end.

Definition validateLoopSignature (key : string) (isBody : bool)
    (req : Request) : M Outcome :=
  let paramsObject := if isBody then body req else query req in
  mainParamToTest <- lift (get paramsObject key) ;;
  es <- lift (entries mainParamToTest) ;;
  r <- validateLoopSignature_items es ;;
  match r with
  | Some out => ret out
  | None => ret Next
  end.

(** *** validateLockData (lines 172-188) *)
Definition validateLockData (req : Request) : M Outcome :=
  try_catch
    (pubKey <- lift (get (body req) "key") ;;
     signature <- lift (get (body req) "signature") ;;
     data <- lift (get (body req) "data") ;;
     (* verify signature here *)
     msgHash <- lift (keccak256_stringify data) ;;
     keyBuf <- lift (Buffer_from_hex pubKey) ;;
     emit (EvVerify msgHash (SigRaw signature) (KeyBuffer keyBuf)) ;;;
     ok <- lift (verify msgHash (SigRaw signature) (KeyBuffer keyBuf)) ;;
     if negb ok then ret (Send 403 (lock_failure (JStr "Invalid Signature")))
     else
       (* protection against old signature *)
       timeStamp <- lift (get data "timeStamp") ;;
       old <- signed_more_than_60s_ago (ToNumber timeStamp) ;;
       if old then ret (Send 403 (lock_failure (JStr msg_too_old)))
       else ret Next)
    (fun error =>
       log_error "" ;;;
       ret (Send 500 (lock_failure (getError error)))).

(** *** V2 validation functions (lines 190-245) *)

(** The conjunction is evaluated left to right and stops at the first
    [false]. *)
Definition validV2InputWithSig (b : JSValue) : Completion bool :=
  match js_in "set_data" b with
  | Throw e => Throw e
  | Normal false => Normal false
  | Normal true =>
      match js_in "pub_key_X" b with
      | Throw e => Throw e
      | Normal false => Normal false
      | Normal true =>
          match js_in "pub_key_Y" b with
          | Throw e => Throw e
          | Normal false => Normal false
          | Normal true => js_in "signature" b
          end
      end
  end.

Definition validateGetOrSetNonceSetInput (req : Request) : M Outcome :=
  withSig <- lift (validV2InputWithSig (body req)) ;;
  if negb withSig then
    set_local "noValidSig" (JBool true) ;;;
    ret Next
  else
    set_data <- lift (get (body req) "set_data") ;;
    let setData := or_empty_object set_data in
    '(errors, isValid) <- call_validateInput setData ["data"; "timestamp"] ;;
    if negb isValid then ret (Send 400 (failure (JObj errors)))
    else
      timestamp <- lift (get setData "timestamp") ;;
      data <- lift (get setData "data") ;;
      if negb (includes_nonce_command data) then
        ret (Send 403 (failure (JObj (obj_set "data" (JStr msg_nonce_command) errors))))
      else
        let timeParsed := parseInt timestamp in
        old <- signed_more_than_60s_ago timeParsed ;;
        if old then
          ret (Send 403 (failure (JObj (obj_set "timestamp" (JStr msg_too_old) errors))))
        else ret Next.

Definition validateGetOrSetNonceSignature (req : Request) : M Outcome :=
  withSig <- lift (validV2InputWithSig (body req)) ;;
  if negb withSig then
    set_local "noValidSig" (JBool true) ;;;
    ret Next
  else
    try_catch
      (ok <- isValidSignature (body req) ;;
       if negb ok then
         ret (Send 403 (failure (JObj [("signature", JStr msg_invalid_signature)])))
       else ret Next)
      (fun error =>
         log_error "signature verification failed" ;;;
         ret (Send 500 (failure (getError error)))).

(** The four fields whose presence the V2 middlewares test. *)
Definition v2_fields : list string :=
  ["set_data"; "pub_key_X"; "pub_key_Y"; "signature"].

Definition metadata_items : list string := ["data"; "timestamp"].

(** [{ ...errors, timestamp: "Message has been signed more than 60s ago" }]
    sent with status 403. *)
Definition too_old (errors : Obj) : Outcome :=
  Send 403 (failure (JObj (obj_set "timestamp" (JStr msg_too_old) errors))).

Definition invalid_signature : JSValue :=
  failure (JObj [("signature", JStr msg_invalid_signature)]).

Definition invalid_signature_at (index : nat) : JSValue :=
  failure (JObj [("index", js_index index);
                 ("signature", JStr msg_invalid_signature)]).

Definition with_event (ev : Event) (st : Store) : Store :=
  MkStore (locals st) (reads st) (trace st ++ [ev]).

(** Running a loop on [pre] and, unless it returned or threw, going on
    from the store it left. *)
Definition and_then (r : Completion (option Outcome) * Store)
    (k : Store -> Completion (option Outcome) * Store)
  : Completion (option Outcome) * Store :=
  match r with
  | (Normal None, st') => k st'
  | _ => r
  end.

(** *** validateNamespace and validateNamespaceLoop (lines 144-170) *)

(** [getDBTableName] of [../utils/namespace]: the table of a namespace,
    or an exception ("function will validate namespace too"). *)
Variable getDBTableName : JSValue -> Completion JSValue.

(** Assignment [v.k = x] in module (strict) code: it adds or replaces
    the property of an object and throws on [undefined], [null] and on a
    primitive.  A named property given to an array is no JSON data: the
    model keeps the array as it is, and the properties below are stated
    for objects. *)
Definition assign (v : JSValue) (k : string) (x : JSValue) : Completion JSValue :=
  match v with
  | JObj o => Normal (JObj (obj_set k x o))
  | JArr l => Normal (JArr l)
  | JUndefined => Throw (TypeError "Cannot set properties of undefined")
  | JNull => Throw (TypeError "Cannot set properties of null")
  | JBool _ | JNum _ | JStr _ => Throw (TypeError "Cannot create property")
  end.

Fixpoint array_put (k : string) (i : nat) (l : list JSValue) (x : JSValue)
  : list JSValue :=
  match l with
  | [] => []
  | y :: l' =>
      if String.eqb k (index_string i) then x :: l' else y :: array_put k (S i) l' x
  end.

(** The container [paramsObject] once the array it holds under [key] has
    had its items mutated in place: the same container, with the mutated
    array where the array was. *)
Definition with_items (paramsObject : JSValue) (key : string)
    (items : list JSValue) : JSValue :=
  match paramsObject with
  | JObj o => JObj (obj_set key (JArr items) o)
  | JArr l => JArr (array_put key 0 l (JArr items))
  | _ => paramsObject
  end.

Definition validateNamespace (req : Request) : M (Outcome * Request) :=
  try_catch
    (namespace <- lift (get (body req) "namespace") ;;
     tableName <- lift (getDBTableName namespace) ;;
     body' <- lift (assign (body req) "tableName" tableName) ;;
     ret (Next, MkRequest body' (query req)))
    (fun error =>
       log_error "" ;;;
       ret (Send 500 (failure (getError error)), req)).

(** The loop of lines 160-168: the response sent from inside the loop,
    if any, and the items as the loop leaves them. *)
Fixpoint validateNamespaceLoop_items (es : list (nat * JSValue))
  : M (option Outcome * list JSValue) :=
  match es with
  | [] => ret (None, [])
  | (index, param) :: es' =>
      r <- try_catch
             (namespace <- lift (get param "namespace") ;;
              tableName <- lift (getDBTableName namespace) ;;
              param' <- lift (assign param "tableName" tableName) ;;
              ret (inl param'))
             (fun error =>
                log_error "" ;;;
                ret (inr (Send 500 (failure (getError error))))) ;;
      match r with
      | inr out => ret (Some out, param :: map snd es')
      | inl param' =>
          '(out, rest) <- validateNamespaceLoop_items es' ;;
          ret (out, param' :: rest)
      end
  end.

Definition validateNamespaceLoop (key : string) (isBody : bool)
    (req : Request) : M (Outcome * Request) :=
  let paramsObject := if isBody then body req else query req in
  mainParamToTest <- lift (get paramsObject key) ;;
  es <- lift (entries mainParamToTest) ;;
  '(out, items) <- validateNamespaceLoop_items es ;;
  let paramsObject' := with_items paramsObject key items in
  let req' := if isBody then MkRequest paramsObject' (query req)
              else MkRequest (body req) paramsObject' in
  match out with
  | Some sent => ret (sent, req')
  | None => ret (Next, req')
  end.

(** *** Vocabulary of the properties *)

(** The response, if one is sent, has one of the given status codes. *)
Definition status_among (codes : list Z) (r : Completion Outcome) : Prop :=
  match r with
  | Normal (Send status _) => In status codes
  | _ => True
  end.

Definition returns {A} (r : Completion A * Store) : Prop :=
  exists a st', r = (Normal a, st').

(** An item of a metadata batch that is accepted when the clock is read
    for the [n]-th time: its set_data passes the structural validator
    and is not stale at that reading. *)
Definition accepted_at (n : nat) (param : JSValue) : Prop :=
  exists set_data errors timestamp,
    get param "set_data" = Normal set_data
    /\ validateInput (or_empty_object set_data) metadata_items = Normal (errors, true)
    /\ get (or_empty_object set_data) "timestamp" = Normal timestamp
    /\ stale (seconds_of_ms (Date_now n)) (parseInt timestamp) = false.






(** The table resolved for an item: [getDBTableName(param.namespace)]. *)
Definition table_of (param : JSValue) : Completion JSValue :=
  match get param "namespace" with
  | Normal namespace => getDBTableName namespace
  | Throw e => Throw e
  end.

(** The item once its table has been attached to it. *)
Definition with_table (param : JSValue) : JSValue :=
  match param, table_of param with
  | JObj o, Normal tableName => JObj (obj_set "tableName" tableName o)
  | _, _ => param
  end.

(** An item that is an object and whose namespace has a table. *)
Definition resolvable (param : JSValue) : Prop :=
  exists o tableName, param = JObj o /\ table_of param = Normal tableName.

(** The request with the items of the batch replaced. *)
Definition request_with_items (req : Request) (key : string) (isBody : bool)
    (items : list JSValue) : Request :=
  if isBody then MkRequest (with_items (body req) key items) (query req)
  else MkRequest (body req) (with_items (query req) key items).




(** ** Properties *)

(** The operations of the monad, then the helpers that read the clock
    and call the structural validator. *)
Ltac run :=
  unfold log_error, try_catch, bind, lift, ret, emit, set_local; simpl.

Ltac run_checks :=
  unfold signed_more_than_60s_ago, Date_now_call, call_validateInput; run.

Lemma lookup_obj_set_same (k : string) (v : JSValue) (o : Obj) :
  lookup k (obj_set k v o) = Some v.
Proof using Type.
  induction o as [|[k' v'] o IH]; simpl.
  - now rewrite String.eqb_refl.
  - destruct (String.eqb k k') eqn:E; simpl; rewrite E; auto.
Qed.

Lemma lookup_obj_set_other (k k' : string) (v : JSValue) (o : Obj) :
  k' <> k -> lookup k' (obj_set k v o) = lookup k' o.
Proof using Type.
  intros Hne. induction o as [|[k0 v0] o IH]; simpl.
  - destruct (String.eqb k' k) eqn:E; auto.
    apply String.eqb_eq in E. contradiction.
  - destruct (String.eqb k k0) eqn:E; simpl.
    + apply String.eqb_eq in E. subst k0.
      destruct (String.eqb k' k) eqn:E'; auto.
      apply String.eqb_eq in E'. contradiction.
    + now rewrite IH.
Qed.

Lemma validV2InputWithSig_object (o : Obj) :
  validV2InputWithSig (JObj o) =
  Normal (has_key "set_data" o && has_key "pub_key_X" o
          && has_key "pub_key_Y" o && has_key "signature" o).
Proof using Type.
  unfold validV2InputWithSig; simpl.
  destruct (has_key "set_data" o), (has_key "pub_key_X" o),
    (has_key "pub_key_Y" o); reflexivity.
Qed.

Lemma validV2InputWithSig_missing (o : Obj) (k : string) :
  In k v2_fields -> has_key k o = false ->
  validV2InputWithSig (JObj o) = Normal false.
Proof using Type.
  intros Hin Hk. rewrite validV2InputWithSig_object.
  unfold v2_fields in Hin; simpl in Hin.
  destruct Hin as [<-|[<-|[<-|[<-|[]]]]]; rewrite Hk;
    rewrite ?andb_false_r; reflexivity.
Qed.

Lemma includes_nonce_command_iff (d : JSValue) :
  includes_nonce_command d = true <->
  d = JStr "getOrSetNonce" \/ d = JStr "getNonce".
Proof using Type.
  unfold includes_nonce_command. split.
  - destruct d; try discriminate. intros H.
    apply orb_true_iff in H. destruct H as [H|H];
      apply String.eqb_eq in H; subst; auto.
  - intros [-> | ->]; reflexivity.
Qed.

(** C1.  In optional-signature mode, when one of the four fields
    set_data, pub_key_X, pub_key_Y, signature is absent from the body,
    both [validateGetOrSetNonceSetInput] and
    [validateGetOrSetNonceSignature] call [next()] and change nothing
    but [res.locals.noValidSig], which becomes [true]: no call is made
    to the structural validator, to the clock or to the signature
    verifier, and no response (400, 403 or other) is sent. *)
Theorem optional_signature_bypass :
  forall (o : Obj) (q : JSValue) (k : string) (st : Store),
    In k v2_fields ->
    has_key k o = false ->
    let req := MkRequest (JObj o) q in
    let st' := MkStore (obj_set "noValidSig" (JBool true) (locals st))
                       (reads st) (trace st) in
    validateGetOrSetNonceSetInput req st = (Normal Next, st')
    /\ validateGetOrSetNonceSignature req st = (Normal Next, st')
    /\ lookup "noValidSig" (locals st') = Some (JBool true).
Proof using Type.
  intros o q k st Hin Hk req st'.
  pose proof (validV2InputWithSig_missing o k Hin Hk) as Hv.
  repeat split.
  - unfold validateGetOrSetNonceSetInput. run. rewrite Hv. reflexivity.
  - unfold validateGetOrSetNonceSignature. run. rewrite Hv. reflexivity.
  - apply lookup_obj_set_same.
Qed.

(** C10.  In optional-signature mode with all four fields present and
    a set_data object that passes structural validation,
    [validateGetOrSetNonceSetInput] answers 403 with
    [errors.data = "Should be equal to 'getOrSetNonce' or 'getNonce'"]
    whenever set_data.data is neither of the two commands, and it does
    so before the freshness check: the clock has not been read. *)
Theorem nonce_command_checked_before_freshness :
  forall (o sd errors : Obj) (q : JSValue) (st : Store),
    has_key "pub_key_X" o = true ->
    has_key "pub_key_Y" o = true ->
    has_key "signature" o = true ->
    lookup "set_data" o = Some (JObj sd) ->
    validateInput (JObj sd) metadata_items = Normal (errors, true) ->
    let data := match lookup "data" sd with Some d => d | None => JUndefined end in
    data <> JStr "getOrSetNonce" ->
    data <> JStr "getNonce" ->
    let errors' := obj_set "data" (JStr msg_nonce_command) errors in
    validateGetOrSetNonceSetInput (MkRequest (JObj o) q) st =
      (Normal (Send 403 (failure (JObj errors'))),
       MkStore (locals st) (reads st)
               (trace st ++ [EvValidateInput (JObj sd) metadata_items]))
    /\ lookup "data" errors' = Some (JStr msg_nonce_command).
Proof using Type.
  intros o sd errors q st Hx Hy Hs Hsd Hvalid data Hd1 Hd2 errors'.
  split; [|apply lookup_obj_set_same].
  assert (Hcmd : includes_nonce_command data = false).
  { destruct (includes_nonce_command data) eqn:E; auto.
    apply includes_nonce_command_iff in E. destruct E as [E|E]; contradiction. }
  unfold validateGetOrSetNonceSetInput. run_checks.
  rewrite validV2InputWithSig_object.
  unfold has_key at 1. rewrite Hsd, Hx, Hy, Hs. simpl.
  unfold metadata_items in Hvalid. rewrite Hvalid. simpl.
  fold data. rewrite Hcmd. reflexivity.
Qed.

(** Destructuring reads succeed together: they only depend on the
    value being neither [undefined] nor [null]. *)
Lemma get_total (v : JSValue) (k : string) :
  v <> JUndefined -> v <> JNull -> exists x, get v k = Normal x.
Proof using Type.
  intros Hu Hn. destruct v; simpl; try contradiction; eauto;
    destruct (String.eqb k "length"); eauto.
Qed.

Lemma get_throws_together (v : JSValue) (k k' : string) (e : Exn) :
  get v k = Throw e -> get v k' = Throw e.
Proof using Type.
  destruct v; simpl; try discriminate; auto;
    destruct (String.eqb k "length"); discriminate.
Qed.

(** C7 (amended).  On a body with all four fields,
    [validateGetOrSetNonceSetInput] gives the verdict of
    [validateMetadataInput], with the same effects, provided that a
    set_data which passes structural validation carries one of the two
    nonce commands in its [data]. *)
Theorem v2_set_input_agrees_on_nonce_commands :
  forall (o : Obj) (q set_data : JSValue) (st : Store),
    has_key "pub_key_X" o = true ->
    has_key "pub_key_Y" o = true ->
    has_key "signature" o = true ->
    lookup "set_data" o = Some set_data ->
    (forall errors data,
        validateInput (or_empty_object set_data) metadata_items = Normal (errors, true) ->
        get (or_empty_object set_data) "data" = Normal data ->
        data = JStr "getOrSetNonce" \/ data = JStr "getNonce") ->
    validateGetOrSetNonceSetInput (MkRequest (JObj o) q) st =
    validateMetadataInput (MkRequest (JObj o) q) st.
Proof using Type.
  intros o q set_data st Hx Hy Hs Hsd Hcmd.
  unfold validateGetOrSetNonceSetInput, validateMetadataInput. run_checks.
  rewrite validV2InputWithSig_object.
  unfold has_key at 1. rewrite Hsd, Hx, Hy, Hs. simpl.
  unfold metadata_items in Hcmd.
  destruct (validateInput (or_empty_object set_data) ["data"; "timestamp"])
    as [[errors [|]]|e] eqn:Hv; simpl; try reflexivity.
  destruct (get (or_empty_object set_data) "timestamp") as [ts|e] eqn:Hts;
    [|reflexivity].
  destruct (get (or_empty_object set_data) "data") as [data|e] eqn:Hdata.
  - destruct (Hcmd errors data eq_refl eq_refl) as [-> | ->]; reflexivity.
  - apply (get_throws_together _ _ "timestamp") in Hdata. congruence.
Qed.

(** The freshness stage of [validateMetadataInput]: what happens once
    the structure is accepted and the timestamp has been parsed. *)
Lemma validateMetadataInput_fresh_stage :
  forall (b q set_data timestamp : JSValue) (errors : Obj) (st : Store),
    get b "set_data" = Normal set_data ->
    let setData := or_empty_object set_data in
    validateInput setData metadata_items = Normal (errors, true) ->
    get setData "timestamp" = Normal timestamp ->
    validateMetadataInput (MkRequest b q) st =
      (Normal (if stale (seconds_of_ms (Date_now (reads st))) (parseInt timestamp)
               then too_old errors else Next),
       MkStore (locals st) (S (reads st))
               (trace st ++ [EvValidateInput setData metadata_items; EvDateNow])).
Proof using Type.
  intros b q set_data timestamp errors st Hb setData Hv Hts.
  unfold validateMetadataInput. run_checks. rewrite Hb. simpl. fold setData.
  unfold metadata_items in Hv. rewrite Hv. simpl. rewrite Hts. simpl.
  rewrite <- app_assoc. simpl.
  destruct (stale _ _); reflexivity.
Qed.

Lemma validateGetOrSetNonceSetInput_fresh_stage :
  forall (o : Obj) (q set_data timestamp data : JSValue) (errors : Obj) (st : Store),
    has_key "pub_key_X" o = true ->
    has_key "pub_key_Y" o = true ->
    has_key "signature" o = true ->
    lookup "set_data" o = Some set_data ->
    let setData := or_empty_object set_data in
    validateInput setData metadata_items = Normal (errors, true) ->
    get setData "timestamp" = Normal timestamp ->
    get setData "data" = Normal data ->
    includes_nonce_command data = true ->
    validateGetOrSetNonceSetInput (MkRequest (JObj o) q) st =
      (Normal (if stale (seconds_of_ms (Date_now (reads st))) (parseInt timestamp)
               then too_old errors else Next),
       MkStore (locals st) (S (reads st))
               (trace st ++ [EvValidateInput setData metadata_items; EvDateNow])).
Proof using Type.
  intros o q set_data timestamp data errors st Hx Hy Hs Hsd setData Hv Hts Hd Hcmd.
  unfold validateGetOrSetNonceSetInput. run_checks.
  rewrite validV2InputWithSig_object.
  unfold has_key at 1. rewrite Hsd, Hx, Hy, Hs. simpl. fold setData.
  unfold metadata_items in Hv. rewrite Hv. simpl. rewrite Hts, Hd. simpl.
  rewrite Hcmd. simpl. rewrite <- app_assoc. simpl.
  destruct (stale _ _); reflexivity.
Qed.

Lemma stale_iff (now t : Z) : stale now (Some t) = true <-> now - t > 60.
Proof using Type. unfold stale. rewrite Z.ltb_lt. lia. Qed.

Lemma toInt32_range (z : Z) : - 2 ^ 31 <= toInt32 z < 2 ^ 31.
Proof using Type.
  unfold toInt32. pose proof (Z.mod_pos_bound (z + 2 ^ 31) (2 ^ 32)). lia.
Qed.

(** The numbers of the program are doubles.  Every integer up to 2^53
    in absolute value is a double, and rounding to a double is monotone;
    under these two facts alone, the test computed on doubles, with the
    parsed timestamp and the difference both rounded, is the test on the
    exact integers. *)
Lemma stale_exact_on_doubles (round : Z -> Z) :
  (forall a b, a <= b -> round a <= round b) ->
  (forall a, - 2 ^ 53 <= a <= 2 ^ 53 -> round a = a) ->
  forall ms t : Z,
    (60 <? round (seconds_of_ms ms - round t)) = stale (seconds_of_ms ms) (Some t).
Proof using Type.
  intros Hmono Hexact ms t. unfold stale, seconds_of_ms.
  pose proof (toInt32_range (Z.quot ms 1000)) as Hnow.
  set (now := toInt32 (Z.quot ms 1000)) in *.
  assert (H60 : round 60 = 60) by (apply Hexact; lia).
  assert (H61 : round 61 = 61) by (apply Hexact; lia).
  assert (Hp : round (2 ^ 53) = 2 ^ 53) by (apply Hexact; lia).
  assert (Hm : round (- 2 ^ 53) = - 2 ^ 53) by (apply Hexact; lia).
  assert (Hcases : - 2 ^ 53 <= t <= 2 ^ 53 \/ t > 2 ^ 53 \/ t < - 2 ^ 53) by lia.
  destruct Hcases as [Hin | [Hbig | Hsmall]].
  - rewrite (Hexact t Hin).
    destruct (Z.ltb_spec 60 (now - t)) as [Hlt | Hge].
    + apply Z.ltb_lt. pose proof (Hmono 61 (now - t)). lia.
    + apply Z.ltb_ge. pose proof (Hmono (now - t) 60). lia.
  - pose proof (Hmono (2 ^ 53) t) as Ht.
    pose proof (Hmono (now - round t) 60) as Hd.
    destruct (Z.ltb_spec 60 (now - t)); [lia|].
    apply Z.ltb_ge. lia.
  - pose proof (Hmono t (- 2 ^ 53)) as Ht.
    pose proof (Hmono 61 (now - round t)) as Hd.
    destruct (Z.ltb_spec 60 (now - t)); [|lia].
    apply Z.ltb_lt. lia.
Qed.

(** C3.  When the timestamp is a string whose base-16 parse is the
    integer [t], and [now] is the server time in seconds,
    [validateMetadataInput] (and [validateGetOrSetNonceSetInput] on a
    nonce command) rejects with 403 and
    "Message has been signed more than 60s ago" exactly when
    [now - t > 60]: the request passes at [now - t = 60], is rejected at
    [now - t = 61], and passes for every [t >= now], however far in the
    future. *)
Theorem freshness_window_boundary :
  forall (o : Obj) (q set_data : JSValue) (errors : Obj) (s : string) (t : Z)
         (st : Store),
    lookup "set_data" o = Some set_data ->
    let setData := or_empty_object set_data in
    validateInput setData metadata_items = Normal (errors, true) ->
    get setData "timestamp" = Normal (JStr s) ->
    parseInt16 s = Some t ->
    let now := seconds_of_ms (Date_now (reads st)) in
    let req := MkRequest (JObj o) q in
    let guard (out : Completion Outcome) :=
      (out = Normal (too_old errors) <-> now - t > 60)
      /\ (out = Normal Next <-> now - t <= 60)
      /\ (now - t = 60 -> out = Normal Next)
      /\ (now - t = 61 -> out = Normal (too_old errors))
      /\ (t >= now -> out = Normal Next) in
    guard (fst (validateMetadataInput req st))
    /\ (has_key "pub_key_X" o = true ->
        has_key "pub_key_Y" o = true ->
        has_key "signature" o = true ->
        (forall data, get setData "data" = Normal data ->
                      includes_nonce_command data = true) ->
        guard (fst (validateGetOrSetNonceSetInput req st))).
Proof using Type.
  intros o q set_data errors s t st Hsd setData Hv Hts Hparse now req guard.
  assert (Hguard : guard (Normal (if stale now (Some t) then too_old errors else Next))).
  { unfold guard. pose proof (stale_iff now t) as Hst.
    destruct (stale now (Some t)).
    - assert (now - t > 60) by (apply Hst; reflexivity).
      repeat split; intros; try reflexivity; try lia; try discriminate.
    - assert (~ now - t > 60) by (intros Hgt; apply Hst in Hgt; discriminate).
      repeat split; intros; try reflexivity; try lia; try discriminate. }
  assert (Hb : get (JObj o) "set_data" = Normal set_data) by (simpl; now rewrite Hsd).
  split.
  - unfold req. rewrite (validateMetadataInput_fresh_stage _ q _ _ _ st Hb Hv Hts).
    simpl. unfold parseInt. rewrite Hparse. exact Hguard.
  - intros Hx Hy Hs Hcmd.
    destruct (get_total setData "data") as [data Hd].
    { intros E. unfold setData in E. destruct set_data; discriminate. }
    { intros E. rewrite E in Hts. discriminate. }
    unfold req.
    rewrite (validateGetOrSetNonceSetInput_fresh_stage o q _ _ _ _ st
               Hx Hy Hs Hsd Hv Hts Hd (Hcmd _ Hd)).
    simpl. unfold parseInt. rewrite Hparse. exact Hguard.
Qed.

(** C5 (amended).  A timestamp string that does not parse as a base-16
    integer makes [parseInt] return [NaN]; the staleness comparison is
    then false, so the replay guard reports nothing:
    [validateMetadataInput] calls [next()], and
    [validateMetadataLoopInput] goes on to the next item. *)
Theorem unparsable_timestamp_passes :
  forall (b q set_data : JSValue) (errors : Obj) (s : string) (st : Store),
    get b "set_data" = Normal set_data ->
    let setData := or_empty_object set_data in
    validateInput setData metadata_items = Normal (errors, true) ->
    get setData "timestamp" = Normal (JStr s) ->
    parseInt16 s = None ->
    let st' := MkStore (locals st) (S (reads st))
                 (trace st ++ [EvValidateInput setData metadata_items; EvDateNow]) in
    validateMetadataInput (MkRequest b q) st = (Normal Next, st')
    /\ forall (index : nat) (rest : list (nat * JSValue)),
         validateMetadataLoop_items ((index, b) :: rest) st =
         validateMetadataLoop_items rest st'.
Proof using Type.
  intros b q set_data errors s st Hb setData Hv Hts Hparse st'.
  split.
  - rewrite (validateMetadataInput_fresh_stage _ q _ _ _ st Hb Hv Hts).
    unfold parseInt. rewrite Hparse. reflexivity.
  - intros index rest. simpl. run_checks. rewrite Hb. simpl. fold setData.
    unfold metadata_items in Hv. rewrite Hv. simpl. rewrite Hts. simpl.
    unfold parseInt. rewrite Hparse. simpl.
    rewrite <- app_assoc. reflexivity.
Qed.

Lemma entries_not_array (v : JSValue) :
  isArray v = false -> exists e, entries v = Throw e.
Proof using Type. destruct v; simpl; try discriminate; eauto. Qed.

(** C6 (amended).  When the addressed batch field is not an array,
    [validationLoopMiddleware] answers 400 with
    "<key> must be an array" and validates nothing;
    [validateMetadataLoopInput] and [validateLoopSignature], whose guard
    is commented out, send no response: iterating the field throws. *)
Theorem non_array_batch_field :
  forall (items : list string) (key : string) (isBody : bool) (req : Request)
         (v : JSValue) (st : Store),
    get (if isBody then body req else query req) key = Normal v ->
    isArray v = false ->
    validationLoopMiddleware items key isBody req st =
      (Normal (Send 400 (failure (must_be_an_array key))), st)
    /\ (exists e, validateMetadataLoopInput key isBody req st = (Throw e, st))
    /\ (exists e, validateLoopSignature key isBody req st = (Throw e, st)).
Proof using Type.
  intros items key isBody req v st Hget Harr.
  destruct (entries_not_array v Harr) as [e He].
  repeat split.
  - unfold validationLoopMiddleware. run. rewrite Hget. simpl. rewrite Harr. reflexivity.
  - exists e. unfold validateMetadataLoopInput. run. rewrite Hget. simpl.
    rewrite He. reflexivity.
  - exists e. unfold validateLoopSignature. run. rewrite Hget. simpl.
    rewrite He. reflexivity.
Qed.

Lemma stages_app (t1 t2 : list Event) :
  stages (t1 ++ t2) = stages t1 ++ stages t2.
Proof using Type.
  induction t1 as [|ev t1 IH]; simpl; auto.
  destruct (stage_of ev); simpl; now rewrite IH.
Qed.

Ltac split_matches :=
  repeat match goal with
         | |- context [match ?x with _ => _ end] =>
             lazymatch x with
             | context [match _ with _ => _ end] => fail
             | _ => destruct x eqn:?; simpl
             end
         end.

Ltac stage_list :=
  rewrite <- ?app_assoc; rewrite ?stages_app; simpl;
  eexists; split;
  [ reflexivity || (symmetry; apply app_nil_r) | auto ].







(** *** What the verifier is given as [r] and [s] *)

Lemma from_hex_byte (b : Byte.byte) (s : string) :
  from_hex (String (hex_char (Byte.to_N b / 16))
              (String (hex_char (Byte.to_N b mod 16)) s)) = b :: from_hex s.
Proof using Type. destruct b; reflexivity. Qed.

Lemma from_hex_toString_hex (bs : list Byte.byte) :
  from_hex (toString_hex bs) = bs.
Proof using Type.
  induction bs as [|b bs IH]; [reflexivity|].
  cbn [toString_hex]. rewrite from_hex_byte. now rewrite IH.
Qed.

Lemma substring_hex_prefix (n : nat) (bs : list Byte.byte) :
  String.substring 0 (2 * n) (toString_hex bs) = toString_hex (firstn n bs).
Proof using Type.
  revert bs. induction n as [|n IH]; intros bs.
  - simpl. destruct (toString_hex bs); reflexivity.
  - replace (2 * S n)%nat with (S (S (2 * n))) by lia.
    destruct bs as [|b bs]; [reflexivity|].
    cbn [toString_hex firstn String.substring]. now rewrite IH.
Qed.

Lemma substring_hex_skip (n m : nat) (bs : list Byte.byte) :
  String.substring (2 * n) m (toString_hex bs) =
  String.substring 0 m (toString_hex (skipn n bs)).
Proof using Type.
  revert bs. induction n as [|n IH]; intros bs.
  - reflexivity.
  - replace (2 * S n)%nat with (S (S (2 * n))) by lia.
    destruct bs as [|b bs].
    + cbn [toString_hex skipn String.substring]. destruct m; reflexivity.
    + cbn [toString_hex skipn String.substring]. apply IH.
Qed.

(** The two halves are the first 32 bytes and the (at most 32) bytes
    that follow, whatever the length of the decoded signature. *)
Lemma split_signature_bytes (bs : list Byte.byte) :
  split_signature bs = SigRS (firstn 32 bs) (firstn 32 (skipn 32 bs)).
Proof using Type.
  unfold split_signature, substring.
  change (128 - 64)%nat with (2 * 32)%nat.
  change (64 - 0)%nat with (2 * 32)%nat.
  change 64%nat with (2 * 32)%nat.
  rewrite substring_hex_skip, !substring_hex_prefix, !from_hex_toString_hex.
  reflexivity.
Qed.

(** C4 (amended).  A signature string whose base64 decoding has a
    length other than 64 bytes is not reported as a structural
    failure.  No length is checked: the verifier is called with [r]
    the first 32 decoded bytes and [s] the bytes that follow (at most
    32), and its answer alone decides the verdict, [next()] when it
    accepts and the very 403 "Invalid signature" of a signature that
    did not match when it refuses (500 when it throws). *)
Theorem signature_length_not_checked :
  forall (o : Obj) (q x y sd : JSValue) (sgn h : string) (pk : Key) (st : Store),
    get (JObj o) "pub_key_X" = Normal x ->
    get (JObj o) "pub_key_Y" = Normal y ->
    get (JObj o) "signature" = Normal (JStr sgn) ->
    get (JObj o) "set_data" = Normal sd ->
    List.length (base64_decode sgn) <> 64%nat ->
    keyFromPublic x y = Normal pk ->
    keccak256_stringify sd = Normal h ->
    let bs := base64_decode sgn in
    let ecSignature := SigRS (firstn 32 bs) (firstn 32 (skipn 32 bs)) in
    let st' := with_event (EvVerify h ecSignature pk) st in
    let st'' := with_event (EvLogError "signature verification failed") st' in
    validateSignature (MkRequest (JObj o) q) st =
      match verify h ecSignature pk with
      | Normal true => (Normal Next, st')
      | Normal false => (Normal (Send 403 invalid_signature), st')
      | Throw e => (Normal (Send 500 (failure (getError e))), st'')
      end
    /\ forall (index : nat) (rest : list (nat * JSValue)),
         validateLoopSignature_items ((index, JObj o) :: rest) st =
         match verify h ecSignature pk with
         | Normal true => validateLoopSignature_items rest st'
         | Normal false => (Normal (Some (Send 403 (invalid_signature_at index))), st')
         | Throw e =>
             (Normal (Some (Send 500 (failure (getError (exn_set_index index e))))), st'')
         end.
Proof using Type.
  intros o q x y sd sgn h pk st Hx Hy Hsig Hsd _ Hkey Hhash bs ecSignature st' st''.
  assert (Hrun : isValidSignature (JObj o) st = (verify h ecSignature pk, st')).
  { unfold isValidSignature. run.
    simpl in Hx, Hy, Hsig, Hsd.
    injection Hx as Hx. injection Hy as Hy. injection Hsig as Hsig. injection Hsd as Hsd.
    rewrite Hx, Hy, Hsig, Hsd, Hkey. simpl. rewrite Hhash.
    rewrite split_signature_bytes. reflexivity. }
  split.
  - unfold validateSignature, try_catch, bind. cbn [body]. rewrite Hrun.
    destruct (verify h ecSignature pk) as [[|]|e]; reflexivity.
  - intros index rest. cbn [validateLoopSignature_items].
    unfold try_catch, bind at 1 2. rewrite Hrun.
    destruct (verify h ecSignature pk) as [[|]|e]; reflexivity.
Qed.

(** *** Batches *)

Lemma indexed_app (i : nat) (pre post : list JSValue) :
  indexed i (pre ++ post) =
  indexed i pre ++ indexed (i + List.length pre) post.
Proof using Type.
  revert i. induction pre as [|x pre IH]; intros i; simpl.
  - now rewrite Nat.add_0_r.
  - rewrite IH. now rewrite Nat.add_succ_r.
Qed.

Lemma validationLoop_items_app (items : list string)
    (pre post : list (nat * JSValue)) (st : Store) :
  validationLoop_items items (pre ++ post) st =
  and_then (validationLoop_items items pre st) (validationLoop_items items post).
Proof using Type.
  revert st. induction pre as [|[index param] pre IH]; intros st.
  - simpl. unfold ret, and_then. reflexivity.
  - simpl. run_checks. destruct (validateInput param items) as [[errors [|]]|e]; simpl.
    + apply IH.
    + reflexivity.
    + reflexivity.
Qed.

Lemma validateMetadataLoop_items_app (pre post : list (nat * JSValue))
    (st : Store) :
  validateMetadataLoop_items (pre ++ post) st =
  and_then (validateMetadataLoop_items pre st) (validateMetadataLoop_items post).
Proof using Type.
  revert st. induction pre as [|[index param] pre IH]; intros st.
  - simpl. unfold ret, and_then. reflexivity.
  - simpl. run_checks. destruct (get param "set_data") as [sd|e]; simpl; [|reflexivity].
    destruct (validateInput (or_empty_object sd) ["data"; "timestamp"])
      as [[errors [|]]|e]; simpl; try reflexivity.
    destruct (get (or_empty_object sd) "timestamp") as [ts|e]; simpl; [|reflexivity].
    destruct (stale _ _); simpl; [reflexivity|apply IH].
Qed.

Lemma validateLoopSignature_items_app (pre post : list (nat * JSValue))
    (st : Store) :
  validateLoopSignature_items (pre ++ post) st =
  and_then (validateLoopSignature_items pre st) (validateLoopSignature_items post).
Proof using Type.
  revert st. induction pre as [|[index param] pre IH]; intros st.
  - simpl. unfold ret, and_then. reflexivity.
  - cbn [app validateLoopSignature_items]. unfold try_catch, bind at 1 2 4 5.
    destruct (isValidSignature param st) as [[[|]|e] st1]; simpl.
    + apply IH.
    + reflexivity.
    + reflexivity.
Qed.

(** Fail-fast, for the three batch loops: once the items before a
    failing one have passed and that one makes the loop return, the
    loop over the whole batch returns the same response from the same
    store, whatever follows. *)
Lemma batch_loops_fail_fast :
  forall (items : list string) (pre post : list (nat * JSValue))
         (item : nat * JSValue) (out : Outcome) (st st1 st2 : Store),
    (validationLoop_items items pre st = (Normal None, st1) ->
     validationLoop_items items [item] st1 = (Normal (Some out), st2) ->
     validationLoop_items items (pre ++ item :: post) st = (Normal (Some out), st2))
    /\ (validateMetadataLoop_items pre st = (Normal None, st1) ->
        validateMetadataLoop_items [item] st1 = (Normal (Some out), st2) ->
        validateMetadataLoop_items (pre ++ item :: post) st = (Normal (Some out), st2))
    /\ (validateLoopSignature_items pre st = (Normal None, st1) ->
        validateLoopSignature_items [item] st1 = (Normal (Some out), st2) ->
        validateLoopSignature_items (pre ++ item :: post) st = (Normal (Some out), st2)).
Proof using Type.
  intros items pre post item out st st1 st2. repeat split; intros Hpre Hitem.
  - rewrite validationLoop_items_app, Hpre. unfold and_then.
    change (item :: post) with ([item] ++ post).
    rewrite validationLoop_items_app, Hitem. reflexivity.
  - rewrite validateMetadataLoop_items_app, Hpre. unfold and_then.
    change (item :: post) with ([item] ++ post).
    rewrite validateMetadataLoop_items_app, Hitem. reflexivity.
  - rewrite validateLoopSignature_items_app, Hpre. unfold and_then.
    change (item :: post) with ([item] ++ post).
    rewrite validateLoopSignature_items_app, Hitem. reflexivity.
Qed.

(** The first structurally invalid item of a batch is reported under
    its own position, after validating the items before it and none
    after it. *)
Lemma validationLoop_items_first_failure :
  forall (items : list string) (pre post : list JSValue) (bad : JSValue)
         (errors : Obj) (i : nat) (st : Store),
    Forall (fun p => exists errs, validateInput p items = Normal (errs, true)) pre ->
    validateInput bad items = Normal (errors, false) ->
    validationLoop_items items (indexed i (pre ++ bad :: post)) st =
      (Normal (Some (Send 400 (failure
         (JObj (obj_set "index" (js_index (i + List.length pre)) errors))))),
       MkStore (locals st) (reads st)
         (trace st ++ map (fun p => EvValidateInput p items) (pre ++ [bad]))).
Proof using Type.
  intros items pre post bad errors i st Hpre Hbad.
  revert i st. induction Hpre as [|p pre [errs Hp] _ IH]; intros i st.
  - simpl. run_checks. rewrite Hbad. simpl. now rewrite Nat.add_0_r.
  - simpl. run_checks. rewrite Hp. simpl. rewrite IH. simpl.
    rewrite <- app_assoc. simpl. now rewrite Nat.add_succ_r.
Qed.

(** A stale item of a batch: [validateMetadataLoopInput] answers with
    the errors object of the structural validator to which it only
    adds [timestamp]; the position of the item is not recorded. *)
Lemma validateMetadataLoop_items_stale :
  forall (index : nat) (param set_data timestamp : JSValue) (errors : Obj)
         (rest : list (nat * JSValue)) (st : Store),
    get param "set_data" = Normal set_data ->
    let setData := or_empty_object set_data in
    validateInput setData metadata_items = Normal (errors, true) ->
    get setData "timestamp" = Normal timestamp ->
    stale (seconds_of_ms (Date_now (reads st))) (parseInt timestamp) = true ->
    fst (validateMetadataLoop_items ((index, param) :: rest) st) =
      Normal (Some (too_old errors))
    /\ lookup "index" (obj_set "timestamp" (JStr msg_too_old) errors) =
       lookup "index" errors.
Proof using Type.
  intros index param set_data timestamp errors rest st Hp setData Hv Hts Hstale.
  split.
  - simpl. run_checks. rewrite Hp. simpl. fold setData.
    unfold metadata_items in Hv. rewrite Hv. simpl. rewrite Hts. simpl.
    rewrite Hstale. reflexivity.
  - apply lookup_obj_set_other. discriminate.
Qed.

(** ** Further properties of the middlewares *)

(** *** Exceptions *)

Lemma validateLoopSignature_items_returns (es : list (nat * JSValue)) (st : Store) :
  returns (validateLoopSignature_items es st).
Proof using Type.
  revert st. induction es as [|[index param] es IH]; intros st.
  - eexists _, _. reflexivity.
  - cbn [validateLoopSignature_items]. unfold try_catch, bind at 1 2.
    destruct (isValidSignature param st) as [[[|]|e] st1]; run.
    + apply IH.
    + eexists _, _. reflexivity.
    + eexists _, _. reflexivity.
Qed.

Lemma validateNamespaceLoop_items_returns (es : list (nat * JSValue)) (st : Store) :
  returns (validateNamespaceLoop_items es st).
Proof using Type.
  revert st. induction es as [|[index param] es IH]; intros st.
  - eexists _, _. reflexivity.
  - cbn [validateNamespaceLoop_items]. run.
    destruct (get param "namespace") as [ns|e]; simpl;
      [|eexists _, _; reflexivity].
    destruct (getDBTableName ns) as [tb|e]; simpl; [|eexists _, _; reflexivity].
    destruct (assign param "tableName" tb) as [p'|e]; simpl;
      [|eexists _, _; reflexivity].
    destruct (IH st) as [[out rest] [st' Heq]]. rewrite Heq.
    eexists _, _. reflexivity.
Qed.

(** X1.  The middlewares whose body is a [try] block never throw:
    whatever the request, [validationMiddleware],
    [validationLoopMiddleware], [validateSignature], [validateLockData]
    and [validateNamespace] call [next()] or send a response.
    [validateLoopSignature] and [validateNamespaceLoop], whose [try] is
    inside the loop, do so as soon as the addressed field is an array. *)
Theorem exception_safety :
  forall (items : list string) (key : string) (isBody : bool) (req : Request)
         (st : Store),
    returns (validationMiddleware items isBody req st)
    /\ returns (validationLoopMiddleware items key isBody req st)
    /\ returns (validateSignature req st)
    /\ returns (validateLockData req st)
    /\ returns (validateNamespace req st)
    /\ (forall l,
          get (if isBody then body req else query req) key = Normal (JArr l) ->
          returns (validateLoopSignature key isBody req st)
          /\ returns (validateNamespaceLoop key isBody req st)).
Proof using Type.
  intros items key isBody req st.
  assert (Hcatch : forall (A : Type) (m : M A) (h : Exn -> M A) (s : Store),
             (forall e s', returns (h e s')) -> returns (try_catch m h s)).
  { intros A m h s Hh. unfold try_catch.
    destruct (m s) as [[a|e] s']; [eexists _, _; reflexivity|apply Hh]. }
  split; [|split; [|split; [|split; [|split; [|intros l H; split]]]]].
  - apply Hcatch. intros e s'. eexists _, _. reflexivity.
  - apply Hcatch. intros e s'. eexists _, _. reflexivity.
  - apply Hcatch. intros e s'. eexists _, _. reflexivity.
  - apply Hcatch. intros e s'. eexists _, _. reflexivity.
  - apply Hcatch. intros e s'. eexists _, _. reflexivity.
  - unfold validateLoopSignature. run. rewrite H. simpl.
    destruct (validateLoopSignature_items_returns (indexed 0 l) st)
      as [[out|] [st' Heq]]; rewrite Heq; eexists _, _; reflexivity.
  - unfold validateNamespaceLoop. run. rewrite H. simpl.
    destruct (validateNamespaceLoop_items_returns (indexed 0 l) st)
      as [[[out|] rest] [st' Heq]]; rewrite Heq; eexists _, _; reflexivity.
Qed.

(** X2.  The middlewares that read the body outside any [try] block
    throw on a body they cannot read, before any check and without
    sending a response: [validateMetadataInput] when the body is
    [undefined] or [null], the two V2 middlewares (whose presence test
    uses [in]) on every body that is neither an object nor an array. *)
Theorem unguarded_middlewares_throw :
  forall (b q : JSValue) (st : Store),
    ((b = JUndefined \/ b = JNull) ->
     exists e, validateMetadataInput (MkRequest b q) st = (Throw e, st))
    /\ ((forall o, b <> JObj o) -> (forall l, b <> JArr l) ->
        exists e,
          validateGetOrSetNonceSetInput (MkRequest b q) st = (Throw e, st)
          /\ validateGetOrSetNonceSignature (MkRequest b q) st = (Throw e, st)).
Proof using Type.
  intros b q st. split.
  - intros [-> | ->]; eexists; reflexivity.
  - intros Hobj Harr.
    destruct b; try (eexists; split; reflexivity).
    + exfalso. eapply Harr. reflexivity.
    + exfalso. eapply Hobj. reflexivity.
Qed.

(** *** Batches *)

(** X3.  An empty batch passes the three checking batch middlewares:
    each calls [next()] having validated, timed and verified nothing. *)
Theorem empty_batch_passes :
  forall (items : list string) (key : string) (isBody : bool) (req : Request)
         (st : Store),
    get (if isBody then body req else query req) key = Normal (JArr []) ->
    validationLoopMiddleware items key isBody req st = (Normal Next, st)
    /\ validateMetadataLoopInput key isBody req st = (Normal Next, st)
    /\ validateLoopSignature key isBody req st = (Normal Next, st).
Proof using Type.
  intros items key isBody req st Hget. repeat split.
  - unfold validationLoopMiddleware. run. rewrite Hget. reflexivity.
  - unfold validateMetadataLoopInput. run. rewrite Hget. reflexivity.
  - unfold validateLoopSignature. run. rewrite Hget. reflexivity.
Qed.

Lemma validationLoop_items_all_valid (items : list string) (l : list JSValue) :
  Forall (fun p => exists errs, validateInput p items = Normal (errs, true)) l ->
  forall (i : nat) (st : Store),
    validationLoop_items items (indexed i l) st =
      (Normal None,
       MkStore (locals st) (reads st)
         (trace st ++ map (fun p => EvValidateInput p items) l)).
Proof using Type.
  induction 1 as [|p l [errs Hp] _ IH]; intros i st.
  - simpl. unfold ret. rewrite app_nil_r. now destruct st.
  - simpl. run_checks. rewrite Hp. simpl. rewrite IH. simpl.
    now rewrite <- app_assoc.
Qed.

(** X4.  When every item of the batch is valid,
    [validationLoopMiddleware] calls [next()] after validating each item
    exactly once, in the order of the array, against the same list of
    required fields. *)
Theorem validationLoopMiddleware_all_valid :
  forall (items : list string) (key : string) (isBody : bool) (req : Request)
         (l : list JSValue) (st : Store),
    get (if isBody then body req else query req) key = Normal (JArr l) ->
    Forall (fun p => exists errs, validateInput p items = Normal (errs, true)) l ->
    validationLoopMiddleware items key isBody req st =
      (Normal Next,
       MkStore (locals st) (reads st)
         (trace st ++ map (fun p => EvValidateInput p items) l)).
Proof using Type.
  intros items key isBody req l st Hget Hall.
  unfold validationLoopMiddleware. run. rewrite Hget. simpl.
  rewrite (validationLoop_items_all_valid items l Hall 0 st). reflexivity.
Qed.

Lemma validationLoop_items_exception :
  forall (items : list string) (pre post : list JSValue) (bad : JSValue)
         (e : Exn) (i : nat) (st : Store),
    Forall (fun p => exists errs, validateInput p items = Normal (errs, true)) pre ->
    validateInput bad items = Throw e ->
    validationLoop_items items (indexed i (pre ++ bad :: post)) st =
      (Throw e,
       MkStore (locals st) (reads st)
         (trace st ++ map (fun p => EvValidateInput p items) (pre ++ [bad]))).
Proof using Type.
  intros items pre post bad e i st Hpre Hbad.
  revert i st. induction Hpre as [|p pre [errs Hp] _ IH]; intros i st.
  - simpl. run_checks. rewrite Hbad. reflexivity.
  - simpl. run_checks. rewrite Hp. simpl. rewrite IH. simpl.
    now rewrite <- app_assoc.
Qed.

(** X5.  The first item of a batch that does not validate decides the
    answer of [validationLoopMiddleware].  If the validator finds it
    invalid, the answer is 400 with the validator's errors and [index]
    set to the position of the item; if the validator throws on it, the
    answer is 500 with the normalized error and no index.  Either way
    the items before it have been validated and no item after it is. *)
Theorem validationLoopMiddleware_first_offender :
  forall (items : list string) (key : string) (isBody : bool) (req : Request)
         (pre post : list JSValue) (bad : JSValue) (st : Store),
    get (if isBody then body req else query req) key =
      Normal (JArr (pre ++ bad :: post)) ->
    Forall (fun p => exists errs, validateInput p items = Normal (errs, true)) pre ->
    let validated := MkStore (locals st) (reads st)
                       (trace st ++ map (fun p => EvValidateInput p items) (pre ++ [bad])) in
    (forall errors,
        validateInput bad items = Normal (errors, false) ->
        let errors' := obj_set "index" (js_index (List.length pre)) errors in
        validationLoopMiddleware items key isBody req st =
          (Normal (Send 400 (failure (JObj errors'))), validated)
        /\ lookup "index" errors' = Some (js_index (List.length pre)))
    /\ (forall e,
          validateInput bad items = Throw e ->
          validationLoopMiddleware items key isBody req st =
            (Normal (Send 500 (failure (getError e))),
             with_event (EvLogError "validationLoopMiddleware internal error")
               validated)).
Proof using Type.
  intros items key isBody req pre post bad st Hget Hpre validated. split.
  - intros errors Hbad errors'. split; [|apply lookup_obj_set_same].
    unfold validationLoopMiddleware. run. rewrite Hget. simpl.
    rewrite (validationLoop_items_first_failure items pre post bad errors 0 st Hpre Hbad).
    reflexivity.
  - intros e Hbad.
    unfold validationLoopMiddleware. run. rewrite Hget. simpl.
    rewrite (validationLoop_items_exception items pre post bad e 0 st Hpre Hbad).
    reflexivity.
Qed.

Lemma validateMetadataLoop_items_accepted (param : JSValue) (index : nat)
    (rest : list (nat * JSValue)) (st : Store) :
  accepted_at (reads st) param ->
  exists st',
    validateMetadataLoop_items ((index, param) :: rest) st =
      validateMetadataLoop_items rest st'
    /\ reads st' = S (reads st) /\ locals st' = locals st.
Proof using Type.
  intros (set_data & errors & ts & Hsd & Hv & Hts & Hfresh).
  eexists. split.
  - simpl. run_checks. rewrite Hsd. simpl.
    unfold metadata_items in Hv. rewrite Hv. simpl. rewrite Hts. simpl.
    rewrite Hfresh. reflexivity.
  - split; reflexivity.
Qed.

Lemma validateMetadataLoop_items_all_accepted (l : list JSValue) :
  forall (i : nat) (st : Store),
    (forall j p, nth_error l j = Some p -> accepted_at (reads st + j) p) ->
    exists st',
      validateMetadataLoop_items (indexed i l) st = (Normal None, st')
      /\ reads st' = (reads st + List.length l)%nat /\ locals st' = locals st.
Proof using Type.
  induction l as [|p l IH]; intros i st Hall.
  - exists st. simpl. repeat split. now rewrite Nat.add_0_r.
  - assert (Hp : accepted_at (reads st) p).
    { specialize (Hall 0%nat p eq_refl). now rewrite Nat.add_0_r in Hall. }
    destruct (validateMetadataLoop_items_accepted p i (indexed (S i) l) st Hp)
      as (st1 & Hstep & Hreads & Hlocals).
    destruct (IH (S i) st1) as (st' & Hrun & Hreads' & Hlocals').
    { intros j q Hj. rewrite Hreads.
      replace (S (reads st) + j)%nat with (reads st + S j)%nat by lia.
      now apply Hall. }
    exists st'. simpl indexed. rewrite Hstep, Hrun. repeat split.
    + rewrite Hreads', Hreads. simpl. lia.
    + congruence.
Qed.

(** X6.  [validateMetadataLoopInput] reads the clock once per item: the
    item at position [j] is judged against the [j]-th reading made by
    the request.  When every item passes the structural validator and is
    not stale at its own reading, the middleware calls [next()] having
    read the clock as many times as there are items. *)
Theorem validateMetadataLoopInput_all_accepted :
  forall (key : string) (isBody : bool) (req : Request) (l : list JSValue)
         (st : Store),
    get (if isBody then body req else query req) key = Normal (JArr l) ->
    (forall j p, nth_error l j = Some p -> accepted_at (reads st + j) p) ->
    exists st',
      validateMetadataLoopInput key isBody req st = (Normal Next, st')
      /\ reads st' = (reads st + List.length l)%nat
      /\ locals st' = locals st.
Proof using Type.
  intros key isBody req l st Hget Hall.
  destruct (validateMetadataLoop_items_all_accepted l 0 st Hall)
    as (st' & Hrun & Hreads & Hlocals).
  exists st'. split; [|split; assumption].
  unfold validateMetadataLoopInput. run. rewrite Hget. simpl.
  rewrite Hrun. reflexivity.
Qed.

(** X7.  The first structurally invalid item of a metadata batch, when
    the items before it were accepted, is answered with 400, the
    validator's errors and [index] set to its position; the clock is not
    read for it, and no later item is looked at. *)
Theorem validateMetadataLoopInput_first_invalid :
  forall (key : string) (isBody : bool) (req : Request)
         (pre post : list JSValue) (bad set_data : JSValue) (errors : Obj)
         (st : Store),
    get (if isBody then body req else query req) key =
      Normal (JArr (pre ++ bad :: post)) ->
    (forall j p, nth_error pre j = Some p -> accepted_at (reads st + j) p) ->
    get bad "set_data" = Normal set_data ->
    validateInput (or_empty_object set_data) metadata_items = Normal (errors, false) ->
    let errors' := obj_set "index" (js_index (List.length pre)) errors in
    exists st',
      validateMetadataLoopInput key isBody req st =
        (Normal (Send 400 (failure (JObj errors'))), st')
      /\ reads st' = (reads st + List.length pre)%nat
      /\ lookup "index" errors' = Some (js_index (List.length pre)).
Proof using Type.
  intros key isBody req pre post bad set_data errors st Hget Hpre Hsd Hv errors'.
  destruct (validateMetadataLoop_items_all_accepted pre 0 st Hpre)
    as (st1 & Hrun & Hreads & Hlocals).
  exists (with_event (EvValidateInput (or_empty_object set_data) metadata_items) st1).
  split; [|split; [exact Hreads|apply lookup_obj_set_same]].
  unfold validateMetadataLoopInput. run. rewrite Hget. simpl.
  rewrite indexed_app, validateMetadataLoop_items_app, Hrun. unfold and_then.
  simpl. run_checks. rewrite Hsd. simpl.
  unfold metadata_items in Hv. rewrite Hv. reflexivity.
Qed.

(** X8.  A batch of one item is treated as the item alone would be by
    [validateMetadataInput]: the same calls and the same effects; the
    same [next()], the same 403 of a stale item, the same exception; and
    the 400 of an invalid item with [index: 0] added to the errors. *)
Theorem singleton_metadata_batch :
  forall (key : string) (isBody : bool) (req : Request) (item q : JSValue)
         (st : Store),
    get (if isBody then body req else query req) key = Normal (JArr [item]) ->
    let single := validateMetadataInput (MkRequest item q) st in
    let batch := validateMetadataLoopInput key isBody req st in
    snd batch = snd single
    /\ (fst single = Normal Next -> fst batch = Normal Next)
    /\ (forall e, fst single = Throw e -> fst batch = Throw e)
    /\ (forall json, fst single = Normal (Send 403 json) ->
                     fst batch = Normal (Send 403 json))
    /\ (forall json, fst single = Normal (Send 400 json) ->
          exists errors, json = failure (JObj errors)
            /\ fst batch =
               Normal (Send 400 (failure (JObj (obj_set "index" (js_index 0) errors))))).
Proof using Type.
  intros key isBody req item q st Hget single batch.
  unfold single, batch, validateMetadataLoopInput, validateMetadataInput.
  run_checks. rewrite Hget. simpl. run_checks.
  destruct (get item "set_data") as [sd|e]; simpl;
    [|repeat split; intros; try discriminate; congruence].
  destruct (validateInput (or_empty_object sd) ["data"; "timestamp"])
    as [[errors [|]]|e]; simpl.
  - destruct (get (or_empty_object sd) "timestamp") as [ts|e]; simpl;
      [|repeat split; intros; try discriminate; congruence].
    destruct (stale _ _); simpl; repeat split; intros; try discriminate; congruence.
  - repeat split; intros; try discriminate.
    exists errors. split; [congruence|reflexivity].
  - repeat split; intros; try discriminate; congruence.
Qed.

(** X9.  A batch of one item is treated by [validateLoopSignature] as
    the item alone would be by [validateSignature]: the same call to the
    verifier and the same effects; [next()] when the signature verifies;
    the 403 "Invalid signature" with [index: 0] added; the 500 computed
    from the same exception, on which [index] has been set to 0. *)
Theorem singleton_signature_batch :
  forall (key : string) (isBody : bool) (req : Request) (item q : JSValue)
         (st : Store),
    get (if isBody then body req else query req) key = Normal (JArr [item]) ->
    let single := validateSignature (MkRequest item q) st in
    let batch := validateLoopSignature key isBody req st in
    snd batch = snd single
    /\ (fst single = Normal Next -> fst batch = Normal Next)
    /\ (fst single = Normal (Send 403 invalid_signature) ->
        fst batch = Normal (Send 403 (invalid_signature_at 0)))
    /\ (forall json, fst single = Normal (Send 500 json) ->
          exists e, json = failure (getError e)
            /\ fst batch = Normal (Send 500 (failure (getError (exn_set_index 0 e))))).
Proof using Type.
  intros key isBody req item q st Hget single batch.
  unfold single, batch, validateLoopSignature, validateSignature.
  run. rewrite Hget. simpl. run.
  destruct (isValidSignature item st) as [[[|]|e] st1]; simpl;
    repeat split; intros; try discriminate.
  exists e. split; [congruence|reflexivity].
Qed.

(** X10.  On a body that has all four fields,
    [validateGetOrSetNonceSignature] is [validateSignature]: the same
    verdict and the same effects. *)
Theorem v2_signature_is_mandatory_signature :
  forall (req : Request) (st : Store),
    validV2InputWithSig (body req) = Normal true ->
    validateGetOrSetNonceSignature req st = validateSignature req st.
Proof using Type.
  intros req st Hv. unfold validateGetOrSetNonceSignature. run.
  rewrite Hv. reflexivity.
Qed.

Lemma validateLoopSignature_items_all_verified (l : list JSValue) :
  (forall p, In p l -> forall s, fst (isValidSignature p s) = Normal true) ->
  forall (i : nat) (st : Store),
    exists st', validateLoopSignature_items (indexed i l) st = (Normal None, st').
Proof using Type.
  induction l as [|p l IH]; intros Hall i st.
  - eexists. reflexivity.
  - cbn [indexed validateLoopSignature_items]. unfold try_catch, bind at 1 2.
    pose proof (Hall p (or_introl eq_refl) st) as Hp.
    destruct (isValidSignature p st) as [r st1]. simpl in Hp. subst r. run.
    apply IH. intros q Hq. apply Hall. now right.
Qed.

(** X11.  [validateLoopSignature] verifies the items in order and stops
    at the first one that does not verify.  When every signature
    verifies it calls [next()].  When the items before position [i]
    verify and the item at [i] is refused, it answers 403 with
    [{ index: i, signature: "Invalid signature" }]; when the check of
    that item throws, it answers 500 with the normalized error on which
    [index] was set to [i]. *)
Theorem validateLoopSignature_verdicts :
  forall (key : string) (isBody : bool) (req : Request) (st : Store),
    (forall l,
        get (if isBody then body req else query req) key = Normal (JArr l) ->
        (forall p, In p l -> forall s, fst (isValidSignature p s) = Normal true) ->
        fst (validateLoopSignature key isBody req st) = Normal Next)
    /\ (forall pre bad post,
          get (if isBody then body req else query req) key =
            Normal (JArr (pre ++ bad :: post)) ->
          (forall p, In p pre -> forall s, fst (isValidSignature p s) = Normal true) ->
          ((forall s, fst (isValidSignature bad s) = Normal false) ->
           fst (validateLoopSignature key isBody req st) =
             Normal (Send 403 (invalid_signature_at (List.length pre))))
          /\ (forall e, (forall s, fst (isValidSignature bad s) = Throw e) ->
                fst (validateLoopSignature key isBody req st) =
                  Normal (Send 500
                    (failure (getError (exn_set_index (List.length pre) e)))))).
Proof using Type.
  intros key isBody req st. split.
  - intros l Hget Hall.
    destruct (validateLoopSignature_items_all_verified l Hall 0 st) as [st' Hrun].
    unfold validateLoopSignature. run. rewrite Hget. simpl. rewrite Hrun.
    reflexivity.
  - intros pre bad post Hget Hpre.
    destruct (validateLoopSignature_items_all_verified pre Hpre 0 st) as [st1 Hrun].
    split.
    + intros Hbad. unfold validateLoopSignature. run. rewrite Hget. simpl.
      rewrite indexed_app, validateLoopSignature_items_app, Hrun.
      unfold and_then. cbn [indexed validateLoopSignature_items].
      unfold try_catch, bind at 1 2. specialize (Hbad st1).
      destruct (isValidSignature bad st1) as [r st2]. simpl in Hbad. subst r.
      reflexivity.
    + intros e Hbad. unfold validateLoopSignature. run. rewrite Hget. simpl.
      rewrite indexed_app, validateLoopSignature_items_app, Hrun.
      unfold and_then. cbn [indexed validateLoopSignature_items].
      unfold try_catch, bind at 1 2. specialize (Hbad st1).
      destruct (isValidSignature bad st1) as [r st2]. simpl in Hbad. subst r.
      reflexivity.
Qed.

Lemma validationLoop_items_passed (items : list string) (l : list JSValue) :
  forall (i : nat) (st st' : Store),
    validationLoop_items items (indexed i l) st = (Normal None, st') ->
    Forall (fun p => exists errs, validateInput p items = Normal (errs, true)) l.
Proof using Type.
  induction l as [|p l IH]; intros i st st' Hrun; [constructor|].
  simpl in Hrun. revert Hrun. run_checks.
  destruct (validateInput p items) as [[errs [|]]|e] eqn:Hp; simpl; intros Hrun;
    try discriminate.
  constructor; [eauto | eapply IH; exact Hrun].
Qed.

Lemma validationLoop_items_sends_400 (items : list string)
    (es : list (nat * JSValue)) :
  forall (st st' : Store) (out : Outcome),
    validationLoop_items items es st = (Normal (Some out), st') ->
    exists json, out = Send 400 json.
Proof using Type.
  induction es as [|[index p] es IH]; intros st st' out; simpl.
  - discriminate.
  - run_checks. destruct (validateInput p items) as [[errs [|]]|e]; simpl;
      intros Hrun; try discriminate.
    + eapply IH; exact Hrun.
    + injection Hrun as <- _. eexists. reflexivity.
Qed.

(** X12.  What a pass of [validationLoopMiddleware] certifies to the
    middlewares that follow it on a route: the addressed field is an
    array and each of its items is valid for the required fields.  In
    particular [validateLoopSignature], which has no array guard of its
    own, cannot throw on such a request. *)
Theorem validationLoopMiddleware_pass_certifies :
  forall (items : list string) (key : string) (isBody : bool) (req : Request)
         (st st' : Store),
    validationLoopMiddleware items key isBody req st = (Normal Next, st') ->
    (exists l,
        get (if isBody then body req else query req) key = Normal (JArr l)
        /\ Forall (fun p => exists errs, validateInput p items = Normal (errs, true)) l)
    /\ forall s, returns (validateLoopSignature key isBody req s).
Proof using Type.
  intros items key isBody req st st' Hpass.
  assert (Harr : exists l,
             get (if isBody then body req else query req) key = Normal (JArr l)
             /\ Forall (fun p => exists errs, validateInput p items = Normal (errs, true)) l).
  { revert Hpass. unfold validationLoopMiddleware. run.
    destruct (get (if isBody then body req else query req) key) as [v|e]; simpl;
      [|discriminate].
    destruct v as [| | | | | l |]; simpl; try discriminate.
    destruct (validationLoop_items items (indexed 0 l) st)
      as [[[out|]|e] st1] eqn:Hrun; simpl; try discriminate.
    { destruct (validationLoop_items_sends_400 _ _ _ _ _ Hrun) as [json ->].
      discriminate. }
    intros _. exists l. split; [reflexivity|].
    eapply validationLoop_items_passed. exact Hrun. }
  split; [exact Harr|].
  destruct Harr as (l & Hget & _). intros s.
  unfold validateLoopSignature. run. rewrite Hget. simpl.
  destruct (validateLoopSignature_items_returns (indexed 0 l) s)
    as [[out|] [s' Heq]]; rewrite Heq; eexists _, _; reflexivity.
Qed.

(** *** validateLockData *)

(** X13.  [validateLockData] on a request whose signature is refused:
    it answers 403 with [{ error: "Invalid Signature", status: 0 }]
    straight after the verification, without looking at [timeStamp] and
    without reading the clock. *)
Theorem lock_data_refused_signature :
  forall (req : Request) (pubKey signature data : JSValue) (h : string)
         (keyBuf : list Byte.byte) (st : Store),
    get (body req) "key" = Normal pubKey ->
    get (body req) "signature" = Normal signature ->
    get (body req) "data" = Normal data ->
    keccak256_stringify data = Normal h ->
    Buffer_from_hex pubKey = Normal keyBuf ->
    verify h (SigRaw signature) (KeyBuffer keyBuf) = Normal false ->
    validateLockData req st =
      (Normal (Send 403 (lock_failure (JStr "Invalid Signature"))),
       with_event (EvVerify h (SigRaw signature) (KeyBuffer keyBuf)) st).
Proof using Type.
  intros req pubKey signature data h keyBuf st Hk Hs Hd Hh Hb Hv.
  unfold validateLockData. run. rewrite Hk, Hs, Hd. simpl.
  rewrite Hh, Hb. simpl. rewrite Hv. reflexivity.
Qed.

(** X14.  [validateLockData] on a request whose signature verifies:
    [data.timeStamp] is used as a number, without [parseInt].  When it
    converts to the integer [t], the request is answered 403 with
    [{ error: "Message has been signed more than 60s ago", status: 0 }]
    exactly when [now - t > 60]; when it converts to [NaN] (a missing
    [timeStamp] for one) the request passes. *)
Theorem lock_data_freshness :
  forall (req : Request) (pubKey signature data timeStamp : JSValue) (h : string)
         (keyBuf : list Byte.byte) (st : Store),
    get (body req) "key" = Normal pubKey ->
    get (body req) "signature" = Normal signature ->
    get (body req) "data" = Normal data ->
    keccak256_stringify data = Normal h ->
    Buffer_from_hex pubKey = Normal keyBuf ->
    verify h (SigRaw signature) (KeyBuffer keyBuf) = Normal true ->
    get data "timeStamp" = Normal timeStamp ->
    let now := seconds_of_ms (Date_now (reads st)) in
    let out := fst (validateLockData req st) in
    (forall t, ToNumber timeStamp = Some t ->
       (out = Normal (Send 403 (lock_failure (JStr msg_too_old))) <-> now - t > 60)
       /\ (out = Normal Next <-> now - t <= 60))
    /\ (ToNumber timeStamp = None -> out = Normal Next).
Proof using Type.
  intros req pubKey signature data timeStamp h keyBuf st Hk Hs Hd Hh Hb Hv Hts now out.
  assert (Hout : out = Normal (if stale now (ToNumber timeStamp)
                               then Send 403 (lock_failure (JStr msg_too_old))
                               else Next)).
  { unfold out, validateLockData. run_checks. rewrite Hk, Hs, Hd. simpl.
    rewrite Hh, Hb. simpl. rewrite Hv. simpl. rewrite Hts. simpl.
    fold now. destruct (stale now (ToNumber timeStamp)); reflexivity. }
  rewrite Hout. split.
  - intros t Ht. rewrite Ht. pose proof (stale_iff now t) as Hst.
    destruct (stale now (Some t)).
    + assert (now - t > 60) by (apply Hst; reflexivity).
      repeat split; intros; try reflexivity; try lia; try discriminate.
    + assert (~ now - t > 60) by (intros Hgt; apply Hst in Hgt; discriminate).
      repeat split; intros; try reflexivity; try lia; try discriminate.
  - intros Hnan. rewrite Hnan. reflexivity.
Qed.

(** *** Status codes and the store *)

Lemma validateMetadataLoop_items_sends (es : list (nat * JSValue)) :
  forall (st st' : Store) (out : Outcome),
    validateMetadataLoop_items es st = (Normal (Some out), st') ->
    exists status json, out = Send status json /\ (status = 400 \/ status = 403).
Proof using Type.
  induction es as [|[index p] es IH]; intros st st' out; simpl.
  - discriminate.
  - run_checks. destruct (get p "set_data") as [sd|e]; simpl; [|discriminate].
    destruct (validateInput (or_empty_object sd) ["data"; "timestamp"])
      as [[errs [|]]|e]; simpl; try discriminate.
    + destruct (get (or_empty_object sd) "timestamp") as [ts|e]; simpl;
        [|discriminate].
      destruct (stale _ _); simpl; intros Hrun.
      * injection Hrun as <- _. eexists _, _. split; [reflexivity|now right].
      * eapply IH; exact Hrun.
    + intros Hrun. injection Hrun as <- _. eexists _, _. split; [reflexivity|now left].
Qed.

Lemma validateLoopSignature_items_sends (es : list (nat * JSValue)) :
  forall (st st' : Store) (out : Outcome),
    validateLoopSignature_items es st = (Normal (Some out), st') ->
    exists status json, out = Send status json /\ (status = 403 \/ status = 500).
Proof using Type.
  induction es as [|[index p] es IH]; intros st st' out.
  - discriminate.
  - cbn [validateLoopSignature_items]. unfold try_catch, bind at 1 2.
    destruct (isValidSignature p st) as [[[|]|e] st1]; run; intros Hrun.
    + eapply IH; exact Hrun.
    + injection Hrun as <- _. eexists _, _. split; [reflexivity|now left].
    + injection Hrun as <- _. eexists _, _. split; [reflexivity|now right].
Qed.

(** X15.  The status codes each middleware can answer with.  The
    structural middlewares answer 400 or 500 only, the metadata and V2
    input middlewares 400 or 403 only, the signature middlewares and
    [validateLockData] 403 or 500 only: no middleware answers a
    signature with 400, and none answers a structural or freshness
    failure with 500 itself. *)
Theorem status_codes :
  forall (items : list string) (key : string) (isBody : bool) (req : Request)
         (st : Store),
    status_among [400; 500] (fst (validationMiddleware items isBody req st))
    /\ status_among [400; 500] (fst (validationLoopMiddleware items key isBody req st))
    /\ status_among [400; 403] (fst (validateMetadataInput req st))
    /\ status_among [400; 403] (fst (validateMetadataLoopInput key isBody req st))
    /\ status_among [400; 403] (fst (validateGetOrSetNonceSetInput req st))
    /\ status_among [403; 500] (fst (validateSignature req st))
    /\ status_among [403; 500] (fst (validateLoopSignature key isBody req st))
    /\ status_among [403; 500] (fst (validateGetOrSetNonceSignature req st))
    /\ status_among [403; 500] (fst (validateLockData req st)).
Proof using Type.
  intros items key isBody req st. unfold status_among.
  repeat split.
  - unfold validationMiddleware. run_checks. split_matches; auto.
  - unfold validationLoopMiddleware. run.
    destruct (get (if isBody then body req else query req) key) as [v|e]; simpl; auto.
    destruct (isArray v); simpl; auto.
    destruct (entries v) as [es|e]; simpl; auto.
    destruct (validationLoop_items items es st) as [[[out|]|e] st1] eqn:Hrun;
      simpl; auto.
    destruct (validationLoop_items_sends_400 _ _ _ _ _ Hrun) as [json ->]. simpl. auto.
  - unfold validateMetadataInput. run_checks. split_matches; auto.
  - unfold validateMetadataLoopInput. run.
    destruct (get (if isBody then body req else query req) key) as [v|e]; simpl; auto.
    destruct (entries v) as [es|e]; simpl; auto.
    destruct (validateMetadataLoop_items es st) as [[[out|]|e] st1] eqn:Hrun;
      simpl; auto.
    destruct (validateMetadataLoop_items_sends _ _ _ _ Hrun)
      as (status & json & -> & [-> | ->]); simpl; auto.
  - unfold validateGetOrSetNonceSetInput. run_checks. split_matches; auto.
  - unfold validateSignature. run.
    destruct (isValidSignature (body req) st) as [[[|]|e] st1]; simpl; auto.
  - unfold validateLoopSignature. run.
    destruct (get (if isBody then body req else query req) key) as [v|e]; simpl; auto.
    destruct (entries v) as [es|e]; simpl; auto.
    destruct (validateLoopSignature_items es st) as [[[out|]|e] st1] eqn:Hrun;
      simpl; auto.
    destruct (validateLoopSignature_items_sends _ _ _ _ Hrun)
      as (status & json & -> & [-> | ->]); simpl; auto.
  - unfold validateGetOrSetNonceSignature. run.
    destruct (validV2InputWithSig (body req)) as [[|]|e]; simpl; auto.
    destruct (isValidSignature (body req) st) as [[[|]|e] st1]; simpl; auto.
  - unfold validateLockData. run_checks. split_matches; auto.
Qed.

Lemma isValidSignature_frame (param : JSValue) (st : Store) :
  locals (snd (isValidSignature param st)) = locals st
  /\ reads (snd (isValidSignature param st)) = reads st.
Proof using Type.
  unfold isValidSignature. run. split_matches; split; reflexivity.
Qed.

Lemma validationLoop_items_frame (items : list string) (es : list (nat * JSValue)) :
  forall st,
    locals (snd (validationLoop_items items es st)) = locals st
    /\ reads (snd (validationLoop_items items es st)) = reads st.
Proof using Type.
  induction es as [|[index p] es IH]; intros st; simpl.
  - split; reflexivity.
  - run_checks. destruct (validateInput p items) as [[errs [|]]|e]; simpl;
      try (split; reflexivity).
    apply (IH (with_event (EvValidateInput p items) st)).
Qed.

Lemma validateLoopSignature_items_frame (es : list (nat * JSValue)) :
  forall st,
    locals (snd (validateLoopSignature_items es st)) = locals st
    /\ reads (snd (validateLoopSignature_items es st)) = reads st.
Proof using Type.
  induction es as [|[index p] es IH]; intros st.
  - split; reflexivity.
  - cbn [validateLoopSignature_items]. unfold try_catch, bind.
    pose proof (isValidSignature_frame p st) as [Hl Hr].
    destruct (isValidSignature p st) as [[[|]|e] st1]; run; simpl in Hl, Hr.
    + destruct (IH st1) as [Hl' Hr']. split; congruence.
    + split; assumption.
    + split; assumption.
Qed.



(** X17.  The clock is read by the freshness tests only: the structural
    middlewares and the signature middlewares, single, batch and V2,
    never call [Date.now()]. *)
Theorem clock_not_read_outside_freshness :
  forall (items : list string) (key : string) (isBody : bool) (req : Request)
         (st : Store),
    reads (snd (validationMiddleware items isBody req st)) = reads st
    /\ reads (snd (validationLoopMiddleware items key isBody req st)) = reads st
    /\ reads (snd (validateSignature req st)) = reads st
    /\ reads (snd (validateLoopSignature key isBody req st)) = reads st
    /\ reads (snd (validateGetOrSetNonceSignature req st)) = reads st.
Proof using Type.
  intros items key isBody req st. repeat split.
  - unfold validationMiddleware. run_checks. split_matches; reflexivity.
  - unfold validationLoopMiddleware. run.
    destruct (get (if isBody then body req else query req) key) as [v|e]; simpl; auto.
    destruct (isArray v); simpl; auto.
    destruct (entries v) as [es|e]; simpl; auto.
    pose proof (validationLoop_items_frame items es st) as [_ Hr].
    destruct (validationLoop_items items es st) as [[[out|]|e] st1]; simpl in *; auto.
  - unfold validateSignature. run.
    pose proof (isValidSignature_frame (body req) st) as [_ Hr].
    destruct (isValidSignature (body req) st) as [[[|]|e] st1]; simpl in *; auto.
  - unfold validateLoopSignature. run.
    destruct (get (if isBody then body req else query req) key) as [v|e]; simpl; auto.
    destruct (entries v) as [es|e]; simpl; auto.
    pose proof (validateLoopSignature_items_frame es st) as [_ Hr].
    destruct (validateLoopSignature_items es st) as [[[out|]|e] st1]; simpl in *; auto.
  - unfold validateGetOrSetNonceSignature. run.
    destruct (validV2InputWithSig (body req)) as [[|]|e]; simpl; auto.
    pose proof (isValidSignature_frame (body req) st) as [_ Hr].
    destruct (isValidSignature (body req) st) as [[[|]|e] st1]; simpl in *; auto.
Qed.

(** *** [parseInt], the 32-bit clock and the signature buffer *)

Lemma hex_digit_not_space (c : ascii) (d : Z) :
  hex_digit c = Some d -> is_white_space c = false.
Proof using Type.
  destruct c as [[] [] [] [] [] [] [] []]; vm_compute; intros H;
    try discriminate; reflexivity.
Qed.












(** X19.  The seconds of the server clock are kept on 32 bits by [~~].
    Until 2038-01-19T03:14:08Z ([2^31] seconds) they are the seconds of
    [Date.now()]; from then on, and for the 2^31 seconds that follow,
    they are those seconds minus [2^32], a negative number, and the
    freshness test lets every timestamp that is not negative pass. *)
Theorem seconds_wrap_in_2038 :
  forall ms : Z,
    (0 <= ms < 2 ^ 31 * 1000 -> seconds_of_ms ms = ms / 1000)
    /\ (2 ^ 31 * 1000 <= ms < 2 ^ 32 * 1000 ->
        seconds_of_ms ms = ms / 1000 - 2 ^ 32
        /\ seconds_of_ms ms < 0
        /\ forall t, 0 <= t -> stale (seconds_of_ms ms) (Some t) = false).
Proof using Type.
  intros ms. unfold seconds_of_ms, toInt32.
  change (2 ^ 31) with 2147483648. change (2 ^ 32) with 4294967296.
  split; intros Hms.
  - rewrite Z.quot_div_nonneg by lia.
    assert (0 <= ms / 1000 < 2147483648).
    { split; [apply Z.div_pos; lia|apply Z.div_lt_upper_bound; lia]. }
    rewrite Z.mod_small by lia. lia.
  - rewrite Z.quot_div_nonneg by lia.
    assert (Hq : 2147483648 <= ms / 1000 < 4294967296).
    { split; [apply Z.div_le_lower_bound; lia|apply Z.div_lt_upper_bound; lia]. }
    assert (Hmod : (ms / 1000 + 2147483648) mod 4294967296 = ms / 1000 - 2147483648).
    { replace (ms / 1000 + 2147483648)
        with ((ms / 1000 - 2147483648) + 1 * 4294967296) by lia.
      rewrite Z.mod_add by lia. apply Z.mod_small. lia. }
    rewrite Hmod. repeat split; try lia.
    intros t Ht. unfold stale. apply Z.ltb_ge. lia.
Qed.

(** X20.  For a decoded signature that starts with the 32 bytes of [r]
    and the 32 bytes of [s], the verifier is given exactly [r] and [s];
    bytes after the 64th are dropped.  Two requests that differ only in
    what their signatures carry after the 64th byte get the same
    verdict. *)
Theorem signature_bytes_after_64_ignored :
  forall (r s extra : list Byte.byte),
    List.length r = 32%nat ->
    List.length s = 32%nat ->
    split_signature (r ++ s ++ extra) = SigRS r s
    /\ forall (x y sd q : JSValue) (sg sg' : string) (st : Store),
         base64_decode sg = r ++ s ->
         base64_decode sg' = r ++ s ++ extra ->
         validateSignature (MkRequest (JObj (signed_body x y (JStr sg) sd)) q) st =
         validateSignature (MkRequest (JObj (signed_body x y (JStr sg') sd)) q) st.
Proof using Type.
  intros r s extra Hr Hs.
  assert (Hsplit : forall tl, split_signature (r ++ s ++ tl) = SigRS r s).
  { intros tl. rewrite split_signature_bytes.
    assert (Hfirst : forall (a b : list Byte.byte),
               List.length a = 32%nat -> firstn 32 (a ++ b) = a).
    { intros a b Ha. rewrite <- Ha.
      now rewrite firstn_app, Nat.sub_diag, firstn_O, app_nil_r, firstn_all. }
    assert (Hskip : skipn 32 (r ++ s ++ tl) = s ++ tl).
    { rewrite <- Hr. now rewrite skipn_app, skipn_all, Nat.sub_diag. }
    rewrite Hskip, (Hfirst r _ Hr), (Hfirst s _ Hs). reflexivity. }
  split; [apply Hsplit|].
  intros x y sd q sg sg' st Hsg Hsg'.
  unfold validateSignature, isValidSignature. run.
  rewrite Hsg, Hsg'. rewrite (Hsplit extra).
  specialize (Hsplit []). rewrite app_nil_r in Hsplit. rewrite Hsplit.
  reflexivity.
Qed.

(** *** validateNamespace and validateNamespaceLoop *)

(** X21.  [validateNamespace] on an object body.  When the namespace
    resolves to a table, the middleware calls [next()] with
    [body.tableName] set to that table, whatever [tableName] the client
    had sent, and every other field of the body as it was.  When the
    resolution throws, the answer is 500 with the normalized error and
    the request is left untouched. *)
Theorem validateNamespace_attaches_table :
  forall (o : Obj) (q : JSValue) (st : Store),
    let req := MkRequest (JObj o) q in
    (forall tableName,
        table_of (JObj o) = Normal tableName ->
        let o' := obj_set "tableName" tableName o in
        validateNamespace req st = (Normal (Next, MkRequest (JObj o') q), st)
        /\ lookup "tableName" o' = Some tableName
        /\ forall k, k <> "tableName" -> lookup k o' = lookup k o)
    /\ (forall e,
          table_of (JObj o) = Throw e ->
          validateNamespace req st =
            (Normal (Send 500 (failure (getError e)), req),
             with_event (EvLogError "") st)).
Proof using Type.
  intros o q st req. unfold table_of. simpl get. cbv zeta. split.
  - intros tableName Ht. repeat split.
    + unfold validateNamespace. run. rewrite Ht. reflexivity.
    + apply lookup_obj_set_same.
    + intros k Hk. now apply lookup_obj_set_other.
  - intros e Ht. unfold validateNamespace. run. rewrite Ht. reflexivity.
Qed.

Lemma indexed_items (l : list JSValue) (i : nat) : map snd (indexed i l) = l.
Proof using Type.
  revert i. induction l as [|x l IH]; intros i; simpl; [reflexivity|].
  now rewrite IH.
Qed.

Lemma validateNamespaceLoop_items_resolved (l : list JSValue) :
  Forall resolvable l ->
  forall (i : nat) (st : Store),
    validateNamespaceLoop_items (indexed i l) st =
      (Normal (None, map with_table l), st).
Proof using Type.
  induction 1 as [|p l (o & t & -> & Ht) _ IH]; intros i st.
  - reflexivity.
  - cbn [indexed validateNamespaceLoop_items map]. run.
    unfold with_table. rewrite Ht. unfold table_of in Ht. simpl get in Ht.
    rewrite Ht. simpl. rewrite IH. reflexivity.
Qed.

Lemma validateNamespaceLoop_items_failure (pre post : list JSValue)
    (bad : JSValue) (e : Exn) :
  Forall resolvable pre ->
  table_of bad = Throw e ->
  forall (i : nat) (st : Store),
    validateNamespaceLoop_items (indexed i (pre ++ bad :: post)) st =
      (Normal (Some (Send 500 (failure (getError e))),
               map with_table pre ++ bad :: post),
       with_event (EvLogError "") st).
Proof using Type.
  intros Hpre Hbad.
  induction Hpre as [|p pre (o & t & -> & Ht) _ IH]; intros i st.
  - cbn [app indexed validateNamespaceLoop_items map]. run.
    unfold table_of in Hbad.
    destruct (get bad "namespace") as [ns|e']; simpl.
    + rewrite Hbad. simpl. now rewrite indexed_items.
    + injection Hbad as ->. now rewrite indexed_items.
  - cbn [app indexed validateNamespaceLoop_items map]. run.
    unfold with_table. rewrite Ht. unfold table_of in Ht. simpl get in Ht.
    rewrite Ht. simpl. rewrite IH. reflexivity.
Qed.

(** X22.  [validateNamespaceLoop] on a batch of objects whose namespaces
    all resolve: it calls [next()], and leaves in the request the same
    items, in the same order, each with [tableName] set to the table of
    its own namespace. *)
Theorem validateNamespaceLoop_attaches_tables :
  forall (key : string) (isBody : bool) (req : Request) (l : list JSValue)
         (st : Store),
    get (if isBody then body req else query req) key = Normal (JArr l) ->
    Forall resolvable l ->
    validateNamespaceLoop key isBody req st =
      (Normal (Next, request_with_items req key isBody (map with_table l)), st)
    /\ Forall2 (fun p p' =>
                  exists o tableName,
                    p = JObj o /\ table_of p = Normal tableName
                    /\ p' = JObj (obj_set "tableName" tableName o))
               l (map with_table l).
Proof using Type.
  intros key isBody req l st Hget Hall. split.
  - unfold validateNamespaceLoop. run. rewrite Hget. simpl.
    rewrite (validateNamespaceLoop_items_resolved l Hall 0 st).
    unfold request_with_items. destruct isBody; reflexivity.
  - clear Hget.
    induction Hall as [|p l (o & t & -> & Ht) _ IH]; cbn [map]; constructor.
    + exists o, t. split; [reflexivity|]. split; [exact Ht|].
      unfold with_table. now rewrite Ht.
    + exact IH.
Qed.

(** X23.  [validateNamespaceLoop] stops at the first item whose
    namespace does not resolve: the answer is 500 with the normalized
    error, without the position of the item.  The items before it keep
    the [tableName] they were given; that item and the ones after it are
    untouched. *)
Theorem validateNamespaceLoop_first_failure :
  forall (key : string) (isBody : bool) (req : Request)
         (pre post : list JSValue) (bad : JSValue) (e : Exn) (st : Store),
    get (if isBody then body req else query req) key =
      Normal (JArr (pre ++ bad :: post)) ->
    Forall resolvable pre ->
    table_of bad = Throw e ->
    validateNamespaceLoop key isBody req st =
      (Normal (Send 500 (failure (getError e)),
               request_with_items req key isBody
                 (map with_table pre ++ bad :: post)),
       with_event (EvLogError "") st).
Proof using Type.
  intros key isBody req pre post bad e st Hget Hpre Hbad.
  unfold validateNamespaceLoop. run. rewrite Hget. simpl.
  rewrite (validateNamespaceLoop_items_failure pre post bad e Hpre Hbad 0 st).
  unfold request_with_items. destruct isBody; reflexivity.
Qed.

(** *** The presence test of the V2 middlewares *)

Lemma has_key_in (k : string) (o : Obj) :
  has_key k o = true <-> In k (map fst o).
Proof using Type.
  unfold has_key. induction o as [|[k' v] o IH]; simpl.
  - split; [discriminate|contradiction].
  - destruct (String.eqb k k') eqn:E.
    + apply String.eqb_eq in E. subst. split; auto.
    + apply String.eqb_neq in E. rewrite IH. split; auto.
      intros [H|H]; [congruence|assumption].
Qed.

Lemma forallb_false_exists {A : Type} (f : A -> bool) (l : list A) :
  forallb f l = false -> exists x, In x l /\ f x = false.
Proof using Type.
  induction l as [|x l IH]; simpl; [discriminate|].
  destruct (f x) eqn:E; simpl.
  - intros H. destruct (IH H) as (y & Hy & Hf). exists y. auto.
  - intros _. exists x. auto.
Qed.

(** X24.  [validV2InputWithSig] tests the presence of the four keys and
    nothing else: on an object it answers [true] exactly when each of
    set_data, pub_key_X, pub_key_Y and signature is a key of the object,
    whatever the values under these keys (a [null] or empty signature is
    present, and is not bypassed). *)
Theorem validV2InputWithSig_tests_presence :
  forall o : Obj,
    (validV2InputWithSig (JObj o) = Normal true <->
     forall k, In k v2_fields -> In k (map fst o))
    /\ (validV2InputWithSig (JObj o) = Normal false <->
        exists k, In k v2_fields /\ ~ In k (map fst o)).
Proof using Type.
  intros o.
  assert (Hv : validV2InputWithSig (JObj o) =
               Normal (forallb (fun k => has_key k o) v2_fields)).
  { rewrite validV2InputWithSig_object. simpl.
    now rewrite andb_true_r, !andb_assoc. }
  rewrite Hv. split.
  - split.
    + intros H.
      assert (Hall : forallb (fun k => has_key k o) v2_fields = true) by congruence.
      rewrite forallb_forall in Hall.
      intros k Hk. apply has_key_in. now apply Hall.
    + intros H. f_equal. apply forallb_forall.
      intros k Hk. apply has_key_in. now apply H.
  - split.
    + intros H.
      assert (Hall : forallb (fun k => has_key k o) v2_fields = false) by congruence.
      destruct (forallb_false_exists _ _ Hall) as (k & Hk & Hf).
      exists k. split; [assumption|].
      intros Hin. apply has_key_in in Hin. congruence.
    + intros (k & Hk & Hnot). f_equal.
      destruct (forallb (fun k0 => has_key k0 o) v2_fields) eqn:E; [|reflexivity].
      rewrite forallb_forall in E. exfalso. apply Hnot, has_key_in. now apply E.
Qed.

Lemma obj_set_idempotent (k : string) (v : JSValue) (o : Obj) :
  obj_set k v (obj_set k v o) = obj_set k v o.
Proof using Type.
  induction o as [|[k' v'] o IH]; simpl.
  - now rewrite String.eqb_refl.
  - destruct (String.eqb k k') eqn:E; simpl; rewrite E; [reflexivity|].
    now rewrite IH.
Qed.

(** X25.  The two V2 middlewares compose on a request that lacks one of
    the four fields: run one after the other, each calls [next()], and
    the second leaves the store as the first left it, with
    [noValidSig] set once. *)
Theorem bypass_composes :
  forall (o : Obj) (q : JSValue) (k : string) (st : Store),
    In k v2_fields ->
    has_key k o = false ->
    let req := MkRequest (JObj o) q in
    let st1 := snd (validateGetOrSetNonceSetInput req st) in
    fst (validateGetOrSetNonceSetInput req st) = Normal Next
    /\ validateGetOrSetNonceSignature req st1 = (Normal Next, st1)
    /\ locals st1 = obj_set "noValidSig" (JBool true) (locals st).
Proof using Type.
  intros o q k st Hin Hk req st1.
  pose proof (validV2InputWithSig_missing o k Hin Hk) as Hv.
  assert (Hst1 : st1 = MkStore (obj_set "noValidSig" (JBool true) (locals st))
                         (reads st) (trace st)).
  { unfold st1, validateGetOrSetNonceSetInput. run. rewrite Hv. reflexivity. }
  repeat split.
  - unfold validateGetOrSetNonceSetInput. run. rewrite Hv. reflexivity.
  - rewrite Hst1. unfold validateGetOrSetNonceSignature. run. rewrite Hv. simpl.
    now rewrite obj_set_idempotent.
  - now rewrite Hst1.
Qed.

End Middleware.

(** ** Canonical serialization is independent of the insertion order *)

Lemma leb_true_cases (a b : string) :
  String.leb a b = true -> a = b \/ String_as_OT.lt a b.
Proof.
  unfold String.leb. destruct (String.compare a b) eqn:E; try discriminate; intros _.
  - left. now apply String_as_OT.cmp_eq.
  - right. now apply String_as_OT.cmp_lt.
Qed.

Lemma leb_false_lt (a b : string) :
  String.leb a b = false -> String_as_OT.lt b a.
Proof.
  unfold String.leb. destruct (String.compare a b) eqn:E; try discriminate; intros _.
  apply String_as_OT.cmp_lt. unfold String_as_OT.cmp.
  rewrite String_as_OT.cmp_antisym. unfold String_as_OT.cmp. now rewrite E.
Qed.

Lemma insert_field_perm (x : string * string) (l : list (string * string)) :
  Permutation (insert_field x l) (x :: l).
Proof.
  induction l as [|y l IH]; simpl; auto.
  destruct (String.leb (fst x) (fst y)); auto.
  rewrite IH. apply perm_swap.
Qed.

Lemma sort_fields_perm (l : list (string * string)) :
  Permutation (sort_fields l) l.
Proof.
  induction l as [|x l IH]; simpl; auto.
  rewrite insert_field_perm. now constructor.
Qed.

Lemma insert_field_sorted (x : string * string) (l : list (string * string)) :
  ~ In (fst x) (map fst l) ->
  StronglySorted key_lt l ->
  StronglySorted key_lt (insert_field x l).
Proof.
  intros Hnew Hs. induction Hs as [|y l Hs IH Hall]; simpl.
  - repeat constructor.
  - simpl in Hnew.
    destruct (String.leb (fst x) (fst y)) eqn:E.
    + assert (Hxy : key_lt x y).
      { destruct (leb_true_cases _ _ E) as [Heq|Hlt]; auto.
        exfalso. apply Hnew. left. now symmetry. }
      constructor; [now constructor|].
      constructor; auto.
      eapply Forall_impl; [|exact Hall].
      intros z Hz. unfold key_lt in *. eapply String_as_OT.lt_trans; eauto.
    + constructor.
      * apply IH. intros Hin. apply Hnew. now right.
      * rewrite insert_field_perm.
        constructor; auto. now apply leb_false_lt.
Qed.

Lemma sort_fields_sorted (l : list (string * string)) :
  NoDup (map fst l) -> StronglySorted key_lt (sort_fields l).
Proof.
  induction l as [|x l IH]; simpl; intros Hnd.
  - constructor.
  - inversion Hnd as [|k ks Hnotin Hnd']; subst.
    apply insert_field_sorted; auto.
    intros Hin. apply Hnotin.
    eapply Permutation_in; [|exact Hin].
    apply Permutation_map, sort_fields_perm.
Qed.

Lemma key_lt_irrefl (a : string * string) : ~ key_lt a a.
Proof.
  intros H. apply String_as_OT.lt_not_eq in H. apply H. reflexivity.
Qed.

Lemma sorted_perm_unique (l1 l2 : list (string * string)) :
  StronglySorted key_lt l1 -> StronglySorted key_lt l2 ->
  Permutation l1 l2 -> l1 = l2.
Proof.
  intros H1. revert l2. induction H1 as [|x l1 Hs1 IH Hall1]; intros l2 H2 Hp.
  - apply Permutation_nil in Hp. now subst.
  - destruct H2 as [|y l2 Hs2 Hall2].
    + symmetry in Hp. apply Permutation_nil in Hp. discriminate.
    + assert (Hxy : x = y).
      { assert (Hx : In x (y :: l2)) by (eapply Permutation_in; [exact Hp|now left]).
        assert (Hy : In y (x :: l1))
          by (eapply Permutation_in; [symmetry; exact Hp|now left]).
        destruct Hx as [Hx|Hx]; [now symmetry|].
        destruct Hy as [Hy|Hy]; [assumption|].
        rewrite Forall_forall in Hall1, Hall2.
        specialize (Hall1 _ Hy). specialize (Hall2 _ Hx).
        exfalso. apply (key_lt_irrefl x).
        unfold key_lt in *. eapply String_as_OT.lt_trans; eauto. }
      subst y. f_equal. apply IH; auto.
      now apply Permutation_cons_inv in Hp.
Qed.

(** Sorting forgets the order in which the fields were given. *)
Lemma sort_fields_order_independent (l1 l2 : list (string * string)) :
  NoDup (map fst l1) -> Permutation l1 l2 -> sort_fields l1 = sort_fields l2.
Proof.
  intros Hnd Hp. apply sorted_perm_unique.
  - now apply sort_fields_sorted.
  - apply sort_fields_sorted.
    eapply Permutation_NoDup; [|exact Hnd]. now apply Permutation_map.
  - rewrite !sort_fields_perm. exact Hp.
Qed.

Lemma JSValue_nested_ind (P : JSValue -> Prop) :
  P JUndefined -> P JNull -> (forall b, P (JBool b)) -> (forall n, P (JNum n)) ->
  (forall s, P (JStr s)) ->
  (forall l, Forall P l -> P (JArr l)) ->
  (forall fs, Forall (fun kv => P (snd kv)) fs -> P (JObj fs)) ->
  forall v, P v.
Proof.
  intros Hu Hn Hb Hz Hs Ha Ho. fix IH 1.
  intros [| | b | n | s | l | fs];
    [exact Hu | exact Hn | apply Hb | apply Hz | apply Hs | | ].
  - apply Ha. induction l as [|x l IHl]; constructor; [apply IH | exact IHl].
  - apply Ho. induction fs as [|[k x] fs IHfs]; constructor; [apply IH | exact IHfs].
Qed.

Lemma rendered_keys (fs : Obj) : map fst (rendered fs) = map fst fs.
Proof.
  unfold rendered. rewrite map_map. apply map_ext. now intros [k x].
Qed.

Lemma canonical_same_data (v1 : JSValue) :
  well_formed v1 -> forall v2, same_data v1 v2 -> canonical v1 = canonical v2.
Proof.
  induction v1 as [| | b | n | s | l IHl | fs IHfs] using JSValue_nested_ind;
    intros Hwf v2 Hsame; inversion Hsame as [| | | | | l1 l2 Hall | fs1 fs2 reordered Hall Hperm];
    subst; try reflexivity.
  - (* arrays *)
    inversion Hwf as [| | | | | l' Hwfl |]; subst.
    simpl. do 3 f_equal. clear Hwf Hsame.
    induction Hall as [|x y l1 l2' Hxy Hrest IH]; [reflexivity|].
    inversion IHl; inversion Hwfl; subst. simpl. f_equal; auto.
  - (* objects *)
    inversion Hwf as [| | | | | | fs' Hnd Hwffs]; subst.
    simpl. do 4 f_equal. fold (rendered fs) (rendered fs2).
    assert (Hren : rendered fs = rendered reordered).
    { clear Hnd Hsame Hwf Hperm.
      induction Hall as [|[k1 x1] [k2 x2] l1 l2' [Hk Hx] Hrest IH]; [reflexivity|].
      inversion IHfs; inversion Hwffs; subst. simpl in *. subst k2.
      f_equal; [f_equal; auto|]. apply IH; auto. }
    rewrite Hren. apply sort_fields_order_independent.
    + rewrite <- Hren, rendered_keys. exact Hnd.
    + unfold rendered. now apply Permutation_map.
Qed.

Lemma stringify_spec_same_data (v1 v2 : JSValue) :
  well_formed v1 -> same_data v1 v2 -> stringify_spec v1 = stringify_spec v2.
Proof.
  intros Hwf Hsame. pose proof (canonical_same_data v1 Hwf v2 Hsame) as Hc.
  unfold stringify_spec. destruct Hsame; try (now rewrite Hc); reflexivity.
Qed.

(** C8.  Canonical serialization only depends on the contents of the
    payload: two payloads that are deeply equal as data, whatever the
    order in which their keys were inserted (at any depth), have the same
    serialization, hence the same digest is handed to the verifier and
    [validateSignature] gives the same verdict on both under the same
    key and signature.  Payloads are JavaScript objects: each key occurs
    once. *)
Theorem canonical_serialization_order_independent :
  forall v1 v2 : JSValue,
    well_formed v1 ->
    same_data v1 v2 ->
    stringify_spec v1 = stringify_spec v2
    /\ (forall keccak256,
          keccak256_stringify stringify_spec keccak256 v1 =
          keccak256_stringify stringify_spec keccak256 v2)
    /\ (forall getError keyFromPublic verify base64_decode Buffer_from_other
               keccak256 x y sg q st,
          validateSignature getError keyFromPublic verify base64_decode
            Buffer_from_other stringify_spec keccak256
            (MkRequest (JObj (signed_body x y sg v1)) q) st =
          validateSignature getError keyFromPublic verify base64_decode
            Buffer_from_other stringify_spec keccak256
            (MkRequest (JObj (signed_body x y sg v2)) q) st).
Proof.
  intros v1 v2 Hwf Hsame.
  pose proof (stringify_spec_same_data v1 v2 Hwf Hsame) as Hs.
  assert (Hk : forall keccak256,
             keccak256_stringify stringify_spec keccak256 v1 =
             keccak256_stringify stringify_spec keccak256 v2).
  { intros keccak256. unfold keccak256_stringify. now rewrite Hs. }
  repeat split; auto.
  intros getError keyFromPublic verify base64_decode Buffer_from_other
         keccak256 x y sg q st.
  unfold validateSignature, isValidSignature, try_catch, bind, lift. simpl.
  now rewrite (Hk keccak256).
Qed.

(** ** The claims on concrete requests *)

Import Example.

Lemma optional_signature_bypass_witness :
  In "signature" v2_fields
  /\ has_key "signature" unsigned_body = false
  /\ validateGetOrSetNonceSetInput validateInput_spec Date_now ToString
       (request unsigned_body) init_store =
     (Normal Next, MkStore [("noValidSig", JBool true)] 0 []).
Proof.
  assert (Hin : In "signature" v2_fields) by (simpl; auto).
  assert (Hk : has_key "signature" unsigned_body = false) by reflexivity.
  split; [exact Hin|]. split; [exact Hk|].
  exact (proj1 (optional_signature_bypass validateInput_spec getError Date_now
                  ToString keyFromPublic verify base64_decode Buffer_from_other
                  stringify_spec keccak256 unsigned_body (JObj []) "signature"
                  init_store Hin Hk)).
Defined.

Lemma nonce_command_checked_before_freshness_witness :
  has_key "pub_key_X" hello_body = true
  /\ has_key "pub_key_Y" hello_body = true
  /\ has_key "signature" hello_body = true
  /\ lookup "set_data" hello_body = Some (set_data_of "hello" "6553f0c4")
  /\ validateInput_spec (set_data_of "hello" "6553f0c4") metadata_items = Normal ([], true)
  /\ JStr "hello" <> JStr "getOrSetNonce"
  /\ JStr "hello" <> JStr "getNonce"
  /\ fst (validateGetOrSetNonceSetInput validateInput_spec Date_now ToString
            (request hello_body) init_store) =
     Normal (Send 403 (failure (JObj [("data", JStr msg_nonce_command)]))).
Proof.
  assert (H1 : JStr "hello" <> JStr "getOrSetNonce") by discriminate.
  assert (H2 : JStr "hello" <> JStr "getNonce") by discriminate.
  repeat (split; [reflexivity || assumption|]).
  exact (f_equal fst
           (proj1 (nonce_command_checked_before_freshness validateInput_spec Date_now
                     ToString hello_body
                     [("data", JStr "hello"); ("timestamp", JStr "6553f0c4")] []
                     (JObj []) init_store eq_refl eq_refl eq_refl eq_refl eq_refl
                     H1 H2))).
Defined.

(** C7, as stated, fails: on a body with all four fields whose command
    is neither nonce command, mandatory mode calls [next()] and V2 mode
    answers 403. *)
Lemma v2_rejects_what_mandatory_mode_accepts :
  validV2InputWithSig (JObj hello_body) = Normal true
  /\ fst (validateMetadataInput validateInput_spec Date_now ToString
            (request hello_body) init_store) = Normal Next
  /\ fst (validateGetOrSetNonceSetInput validateInput_spec Date_now ToString
            (request hello_body) init_store) =
     Normal (Send 403 (failure (JObj [("data", JStr msg_nonce_command)]))).
Proof. repeat split; reflexivity. Qed.

Lemma v2_set_input_agrees_on_nonce_commands_witness :
  has_key "pub_key_X" nonce_body = true
  /\ has_key "pub_key_Y" nonce_body = true
  /\ has_key "signature" nonce_body = true
  /\ lookup "set_data" nonce_body = Some (set_data_of "getNonce" "6553f0c4")
  /\ get (set_data_of "getNonce" "6553f0c4") "data" = Normal (JStr "getNonce")
  /\ validateGetOrSetNonceSetInput validateInput_spec Date_now ToString
       (request nonce_body) init_store =
     validateMetadataInput validateInput_spec Date_now ToString
       (request nonce_body) init_store.
Proof.
  repeat (split; [reflexivity|]).
  apply (v2_set_input_agrees_on_nonce_commands validateInput_spec Date_now ToString
           nonce_body (JObj []) (set_data_of "getNonce" "6553f0c4") init_store);
    try reflexivity.
  intros errors data _ Hdata. simpl in Hdata. right. congruence.
Defined.

Lemma freshness_window_boundary_witness :
  lookup "set_data" nonce_body = Some (set_data_of "getNonce" "6553f0c4")
  /\ validateInput_spec (set_data_of "getNonce" "6553f0c4") metadata_items = Normal ([], true)
  /\ get (set_data_of "getNonce" "6553f0c4") "timestamp" = Normal (JStr "6553f0c4")
  /\ parseInt16 "6553f0c4" = Some 1699999940
  /\ seconds_of_ms (Date_now 0) - 1699999940 = 60
  /\ fst (validateMetadataInput validateInput_spec Date_now ToString
            (request nonce_body) init_store) = Normal Next.
Proof.
  repeat (split; [reflexivity|]).
  pose proof (freshness_window_boundary validateInput_spec Date_now ToString
                nonce_body (JObj []) (set_data_of "getNonce" "6553f0c4") []
                "6553f0c4" 1699999940 init_store eq_refl eq_refl eq_refl eq_refl)
    as [[_ [_ [Hpass _]]] _].
  apply Hpass. reflexivity.
Defined.

(** C5, as stated, fails: a timestamp that is no hexadecimal number is
    accepted as fresh, by [validateMetadataInput] and by
    [validateMetadataLoopInput]. *)
Lemma unparsable_timestamp_accepted :
  parseInt16 "zz" = None
  /\ fst (validateMetadataInput validateInput_spec Date_now ToString
            (request [("set_data", set_data_of "hello" "zz")]) init_store) = Normal Next
  /\ fst (validateMetadataLoopInput validateInput_spec Date_now ToString "shares" true
            (request [("shares", JArr [JObj [("set_data", set_data_of "hello" "zz")]])])
            init_store) = Normal Next.
Proof. repeat split; reflexivity. Qed.

Lemma unparsable_timestamp_passes_witness :
  get (JObj [("set_data", set_data_of "hello" "zz")]) "set_data" =
    Normal (set_data_of "hello" "zz")
  /\ validateInput_spec (set_data_of "hello" "zz") metadata_items = Normal ([], true)
  /\ get (set_data_of "hello" "zz") "timestamp" = Normal (JStr "zz")
  /\ parseInt16 "zz" = None
  /\ fst (validateMetadataInput validateInput_spec Date_now ToString
            (request [("set_data", set_data_of "hello" "zz")]) init_store) = Normal Next.
Proof.
  repeat (split; [reflexivity|]).
  exact (f_equal fst
           (proj1 (unparsable_timestamp_passes validateInput_spec Date_now ToString
                     (JObj [("set_data", set_data_of "hello" "zz")]) (JObj [])
                     (set_data_of "hello" "zz") [] "zz" init_store
                     eq_refl eq_refl eq_refl eq_refl))).
Defined.

(** C6, as stated, fails: on a batch field that is a string,
    [validateMetadataLoopInput] and [validateLoopSignature] throw instead
    of answering 400. *)
Lemma non_array_batch_field_throws :
  fst (validateMetadataLoopInput validateInput_spec Date_now ToString "shares" true
         (request [("shares", JStr "abc")]) init_store) =
    Throw (TypeError "mainParamToTest.entries is not a function")
  /\ fst (validateLoopSignature getError keyFromPublic verify base64_decode
            Buffer_from_other stringify_spec keccak256 "shares" true
            (request [("shares", JStr "abc")]) init_store) =
     Throw (TypeError "mainParamToTest.entries is not a function").
Proof. split; reflexivity. Qed.

Lemma non_array_batch_field_witness :
  get (JObj [("shares", JStr "abc")]) "shares" = Normal (JStr "abc")
  /\ isArray (JStr "abc") = false
  /\ validationLoopMiddleware validateInput_spec getError metadata_items "shares" true
       (request [("shares", JStr "abc")]) init_store =
     (Normal (Send 400 (failure (JObj [("message", JStr "shares must be an array")]))),
      init_store).
Proof.
  repeat (split; [reflexivity|]).
  exact (proj1 (non_array_batch_field validateInput_spec getError Date_now ToString
                  keyFromPublic verify base64_decode Buffer_from_other stringify_spec
                  keccak256 metadata_items "shares" true
                  (request [("shares", JStr "abc")]) (JStr "abc") init_store
                  eq_refl eq_refl)).
Defined.


(** The same order on a lock request signed 61 s before the clock
    reading: the signature is verified and accepted first, and the
    request is then refused for its age. *)
Lemma stale_lock_request_refused_after_verification :
  validateLockData getError Date_now ToNumber verify Buffer_from_other
    stringify_spec keccak256 (request stale_lock_body) init_store =
    (Normal (Send 403 (lock_failure (JStr msg_too_old))),
     MkStore [] 1
       [EvVerify (keccak256 (canonical stale_lock_data))
          (SigRaw stale_lock_signature) (KeyBuffer lock_key_bytes);
        EvDateNow]).
Proof. vm_compute. reflexivity. Qed.

(** C4, as stated, fails: a signature that decodes to 63 bytes gets the
    response of a 64-byte signature that does not match. *)
Lemma short_signature_reported_as_mismatch :
  List.length (base64_decode zeros_63) = 63%nat
  /\ List.length (base64_decode zeros_64) = 64%nat
  /\ fst (validateSignature getError keyFromPublic verify base64_decode
            Buffer_from_other stringify_spec keccak256
            (request short_signature_body) init_store) =
     Normal (Send 403 invalid_signature)
  /\ fst (validateSignature getError keyFromPublic verify base64_decode
            Buffer_from_other stringify_spec keccak256
            (request nonce_body) init_store) =
     Normal (Send 403 invalid_signature).
Proof. repeat split; reflexivity. Qed.

Lemma signature_length_not_checked_witness :
  get (JObj short_signature_body) "pub_key_X" = Normal pub_key_X
  /\ get (JObj short_signature_body) "pub_key_Y" = Normal pub_key_Y
  /\ get (JObj short_signature_body) "signature" = Normal (JStr zeros_63)
  /\ get (JObj short_signature_body) "set_data" =
     Normal (set_data_of "getNonce" "6553f0c4")
  /\ List.length (base64_decode zeros_63) <> 64%nat
  /\ keyFromPublic pub_key_X pub_key_Y = Normal (KeyPair pub_key_X pub_key_Y)
  /\ fst (validateSignature getError keyFromPublic verify base64_decode
            Buffer_from_other stringify_spec keccak256
            (request short_signature_body) init_store) =
     Normal (Send 403 invalid_signature).
Proof.
  assert (Hlen : List.length (base64_decode zeros_63) <> 64%nat)
    by (vm_compute; discriminate).
  repeat (split; [reflexivity || exact Hlen|]).
  exact (f_equal fst
           (proj1 (signature_length_not_checked getError keyFromPublic verify
                     base64_decode Buffer_from_other stringify_spec keccak256
                     short_signature_body (JObj []) pub_key_X pub_key_Y
                     (set_data_of "getNonce" "6553f0c4") zeros_63
                     (keccak256 (canonical (set_data_of "getNonce" "6553f0c4")))
                     (KeyPair pub_key_X pub_key_Y) init_store
                     eq_refl eq_refl eq_refl eq_refl Hlen eq_refl eq_refl))).
Defined.

(** White space before the digits of a timestamp is skipped, whatever
    its encoding takes: a timestamp of 61 s ago that starts with a
    no-break space (C2 A0 in UTF-8), with a byte order mark (EF BB BF) or
    with a line separator (E2 80 A8) is stale; a zero width space (E2 80
    8B) is no white space, and the timestamp that starts with it does not
    parse. *)
Lemma white_space_before_timestamp :
  let text (bytes : list nat) : string :=
    (string_of_list_ascii (map ascii_of_nat bytes) ++ "6553f0c3")%string in
  parseInt16 (text [194; 160]%nat) = Some 1699999939
  /\ parseInt16 (text [239; 187; 191]%nat) = Some 1699999939
  /\ parseInt16 (text [226; 128; 168; 32; 9]%nat) = Some 1699999939
  /\ parseInt16 (text [226; 128; 139]%nat) = None
  /\ fst (validateMetadataInput validateInput_spec Date_now ToString
            (request [("set_data", set_data_of "hello" (text [194; 160]%nat))])
            init_store) =
     Normal (Send 403 (failure (JObj [("timestamp", JStr msg_too_old)]))).
Proof. repeat split; vm_compute; reflexivity. Qed.

(** C2: the failing input.  In a batch whose second item is stale,
    [validateMetadataLoopInput] answers 403 with the message about the
    timestamp only: the response carries no [index], where the claim
    requires [index = 1]. *)
Theorem stale_batch_item_reported_without_index :
  fst (validateMetadataLoopInput validateInput_spec Date_now ToString "shares" true
         (request batch_fresh_then_stale) init_store) =
    Normal (Send 403 (failure (JObj [("timestamp", JStr msg_too_old)])))
  /\ lookup "index" [("timestamp", JStr msg_too_old)] = None.
Proof. split; reflexivity. Qed.

Lemma canonical_serialization_order_independent_witness :
  well_formed (set_data_of "getNonce" "6553f0c4")
  /\ same_data (set_data_of "getNonce" "6553f0c4")
       (JObj [("timestamp", JStr "6553f0c4"); ("data", JStr "getNonce")])
  /\ stringify_spec (set_data_of "getNonce" "6553f0c4") =
     stringify_spec (JObj [("timestamp", JStr "6553f0c4"); ("data", JStr "getNonce")]).
Proof.
  assert (Hwf : well_formed (set_data_of "getNonce" "6553f0c4")).
  { apply wf_obj.
    - repeat constructor; simpl; intros H; repeat destruct H as [H|H]; discriminate || auto.
    - repeat constructor. }
  assert (Hsame : same_data (set_data_of "getNonce" "6553f0c4")
                    (JObj [("timestamp", JStr "6553f0c4"); ("data", JStr "getNonce")])).
  { eapply same_obj.
    - repeat constructor.
    - apply perm_swap. }
  split; [exact Hwf|]. split; [exact Hsame|].
  exact (proj1 (canonical_serialization_order_independent _ _ Hwf Hsame)).
Defined.

(** ** The further properties on concrete requests *)

Lemma exception_safety_witness :
  get (body (batch [JObj nonce_body])) "shares" = Normal (JArr [JObj nonce_body])
  /\ returns (validateLoopSignature getError keyFromPublic verify base64_decode
                Buffer_from_other stringify_spec keccak256 "shares" true
                (batch [JObj nonce_body]) init_store).
Proof.
  split; [reflexivity|].
  destruct (exception_safety validateInput_spec getError Date_now ToNumber
              keyFromPublic verify base64_decode Buffer_from_other stringify_spec
              keccak256 getDBTableName metadata_items "shares" true
              (batch [JObj nonce_body]) init_store)
    as (_ & _ & _ & _ & _ & Harr).
  exact (proj1 (Harr [JObj nonce_body] eq_refl)).
Defined.

Lemma unguarded_middlewares_throw_witness :
  (JNull = JUndefined \/ JNull = JNull)
  /\ exists e, validateMetadataInput validateInput_spec Date_now ToString
                 (MkRequest JNull (JObj [])) init_store = (Throw e, init_store).
Proof.
  assert (H : JNull = JUndefined \/ JNull = JNull) by (right; reflexivity).
  split; [exact H|].
  exact (proj1 (unguarded_middlewares_throw validateInput_spec getError Date_now
                  ToString keyFromPublic verify base64_decode Buffer_from_other
                  stringify_spec keccak256 JNull (JObj []) init_store) H).
Defined.

Lemma empty_batch_passes_witness :
  get (body (batch [])) "shares" = Normal (JArr [])
  /\ validateMetadataLoopInput validateInput_spec Date_now ToString "shares" true
       (batch []) init_store = (Normal Next, init_store).
Proof.
  split; [reflexivity|].
  destruct (empty_batch_passes validateInput_spec getError Date_now ToString
              keyFromPublic verify base64_decode Buffer_from_other stringify_spec
              keccak256 metadata_items "shares" true (batch []) init_store eq_refl)
    as (_ & H & _).
  exact H.
Defined.

Lemma validationLoopMiddleware_all_valid_witness :
  get (body (batch [set_data_of "a" "1"; set_data_of "b" "2"])) "shares" =
    Normal (JArr [set_data_of "a" "1"; set_data_of "b" "2"])
  /\ Forall (fun p => exists errs, validateInput_spec p metadata_items = Normal (errs, true))
       [set_data_of "a" "1"; set_data_of "b" "2"]
  /\ fst (validationLoopMiddleware validateInput_spec getError metadata_items "shares"
            true (batch [set_data_of "a" "1"; set_data_of "b" "2"]) init_store) =
     Normal Next.
Proof.
  assert (Hall : Forall (fun p => exists errs,
                           validateInput_spec p metadata_items = Normal (errs, true))
                   [set_data_of "a" "1"; set_data_of "b" "2"]).
  { repeat constructor; exists []; reflexivity. }
  split; [reflexivity|]. split; [exact Hall|].
  exact (f_equal fst
           (validationLoopMiddleware_all_valid validateInput_spec getError
              metadata_items "shares" true
              (batch [set_data_of "a" "1"; set_data_of "b" "2"])
              [set_data_of "a" "1"; set_data_of "b" "2"] init_store eq_refl Hall)).
Defined.

Lemma validationLoopMiddleware_first_offender_witness :
  get (body (batch [set_data_of "a" "1"; JObj [("data", JStr "x")]; JObj []])) "shares" =
    Normal (JArr ([set_data_of "a" "1"] ++ JObj [("data", JStr "x")] :: [JObj []]))
  /\ Forall (fun p => exists errs, validateInput_spec p metadata_items = Normal (errs, true))
       [set_data_of "a" "1"]
  /\ validateInput_spec (JObj [("data", JStr "x")]) metadata_items =
     Normal ([("timestamp", JStr "timestamp is required")], false)
  /\ fst (validationLoopMiddleware validateInput_spec getError metadata_items "shares"
            true (batch [set_data_of "a" "1"; JObj [("data", JStr "x")]; JObj []])
            init_store) =
     Normal (Send 400 (failure (JObj [("timestamp", JStr "timestamp is required");
                                      ("index", JNum 1)]))).
Proof.
  assert (Hpre : Forall (fun p => exists errs,
                           validateInput_spec p metadata_items = Normal (errs, true))
                   [set_data_of "a" "1"]).
  { repeat constructor; exists []; reflexivity. }
  split; [reflexivity|]. split; [exact Hpre|]. split; [reflexivity|].
  exact (f_equal fst
           (proj1 (proj1 (validationLoopMiddleware_first_offender validateInput_spec
                            getError metadata_items "shares" true
                            (batch [set_data_of "a" "1"; JObj [("data", JStr "x")]; JObj []])
                            [set_data_of "a" "1"] [JObj []] (JObj [("data", JStr "x")])
                            init_store eq_refl Hpre)
                    [("timestamp", JStr "timestamp is required")] eq_refl))).
Defined.

Lemma fresh_item_accepted (n : nat) :
  accepted_at validateInput_spec Date_now ToString n fresh_item.
Proof.
  exists (set_data_of "a" "6553f0c4"), [], (JStr "6553f0c4").
  repeat split; reflexivity.
Defined.

Lemma validateMetadataLoopInput_all_accepted_witness :
  get (body (batch [fresh_item; fresh_item])) "shares" =
    Normal (JArr [fresh_item; fresh_item])
  /\ (forall j p, nth_error [fresh_item; fresh_item] j = Some p ->
                  accepted_at validateInput_spec Date_now ToString (0 + j) p)
  /\ exists st',
       validateMetadataLoopInput validateInput_spec Date_now ToString "shares" true
         (batch [fresh_item; fresh_item]) init_store = (Normal Next, st')
       /\ reads st' = 2%nat.
Proof.
  assert (Hall : forall j p, nth_error [fresh_item; fresh_item] j = Some p ->
                   accepted_at validateInput_spec Date_now ToString (0 + j) p).
  { intros [|[|[|j]]] p Hj; simpl in Hj; try discriminate;
      injection Hj as <-; apply fresh_item_accepted. }
  split; [reflexivity|]. split; [exact Hall|].
  destruct (validateMetadataLoopInput_all_accepted validateInput_spec Date_now ToString
              "shares" true (batch [fresh_item; fresh_item]) [fresh_item; fresh_item]
              init_store eq_refl Hall) as (st' & Hrun & Hreads & _).
  exists st'. split; [exact Hrun|exact Hreads].
Defined.

Lemma validateMetadataLoopInput_first_invalid_witness :
  get (body (batch [fresh_item; untimed_item; stale_item])) "shares" =
    Normal (JArr ([fresh_item] ++ untimed_item :: [stale_item]))
  /\ (forall j p, nth_error [fresh_item] j = Some p ->
                  accepted_at validateInput_spec Date_now ToString (0 + j) p)
  /\ get untimed_item "set_data" = Normal (JObj [("data", JStr "c")])
  /\ validateInput_spec (JObj [("data", JStr "c")]) metadata_items =
     Normal ([("timestamp", JStr "timestamp is required")], false)
  /\ exists st',
       validateMetadataLoopInput validateInput_spec Date_now ToString "shares" true
         (batch [fresh_item; untimed_item; stale_item]) init_store =
         (Normal (Send 400 (failure (JObj [("timestamp", JStr "timestamp is required");
                                           ("index", JNum 1)]))), st')
       /\ reads st' = 1%nat.
Proof.
  assert (Hpre : forall j p, nth_error [fresh_item] j = Some p ->
                   accepted_at validateInput_spec Date_now ToString (0 + j) p).
  { intros [|[|j]] p Hj; simpl in Hj; try discriminate;
      injection Hj as <-; apply fresh_item_accepted. }
  split; [reflexivity|]. split; [exact Hpre|]. split; [reflexivity|].
  split; [reflexivity|].
  destruct (validateMetadataLoopInput_first_invalid validateInput_spec Date_now ToString
              "shares" true (batch [fresh_item; untimed_item; stale_item])
              [fresh_item] [stale_item] untimed_item (JObj [("data", JStr "c")])
              [("timestamp", JStr "timestamp is required")] init_store
              eq_refl Hpre eq_refl eq_refl) as (st' & Hrun & Hreads & _).
  exists st'. split; [exact Hrun|exact Hreads].
Defined.

Lemma singleton_metadata_batch_witness :
  get (body (batch [stale_item])) "shares" = Normal (JArr [stale_item])
  /\ fst (validateMetadataInput validateInput_spec Date_now ToString
            (MkRequest stale_item (JObj [])) init_store) = Normal (too_old [])
  /\ fst (validateMetadataLoopInput validateInput_spec Date_now ToString "shares" true
            (batch [stale_item]) init_store) = Normal (too_old []).
Proof.
  split; [reflexivity|]. split; [reflexivity|].
  destruct (singleton_metadata_batch validateInput_spec Date_now ToString "shares" true
              (batch [stale_item]) stale_item (JObj []) init_store eq_refl)
    as (_ & _ & _ & H403 & _).
  apply H403. reflexivity.
Defined.

Lemma singleton_signature_batch_witness :
  get (body (batch [JObj nonce_body])) "shares" = Normal (JArr [JObj nonce_body])
  /\ fst (validateSignature getError keyFromPublic verify base64_decode
            Buffer_from_other stringify_spec keccak256
            (MkRequest (JObj nonce_body) (JObj [])) init_store) =
     Normal (Send 403 invalid_signature)
  /\ fst (validateLoopSignature getError keyFromPublic verify base64_decode
            Buffer_from_other stringify_spec keccak256 "shares" true
            (batch [JObj nonce_body]) init_store) =
     Normal (Send 403 (invalid_signature_at 0)).
Proof.
  split; [reflexivity|]. split; [reflexivity|].
  destruct (singleton_signature_batch getError keyFromPublic verify base64_decode
              Buffer_from_other stringify_spec keccak256 "shares" true
              (batch [JObj nonce_body]) (JObj nonce_body) (JObj []) init_store eq_refl)
    as (_ & _ & H403 & _).
  apply H403. reflexivity.
Defined.

Lemma v2_signature_is_mandatory_signature_witness :
  validV2InputWithSig (body (request nonce_body)) = Normal true
  /\ validateGetOrSetNonceSignature getError keyFromPublic verify base64_decode
       Buffer_from_other stringify_spec keccak256 (request nonce_body) init_store =
     validateSignature getError keyFromPublic verify base64_decode
       Buffer_from_other stringify_spec keccak256 (request nonce_body) init_store.
Proof.
  split; [reflexivity|].
  exact (v2_signature_is_mandatory_signature getError keyFromPublic verify
           base64_decode Buffer_from_other stringify_spec keccak256
           (request nonce_body) init_store eq_refl).
Defined.

Lemma validateLoopSignature_verdicts_witness :
  get (body (batch [JObj hello_body; JObj nonce_body])) "shares" =
    Normal (JArr [JObj hello_body; JObj nonce_body])
  /\ fst (validateLoopSignature getError keyFromPublic verify_genuine base64_decode
            Buffer_from_other stringify_spec keccak256 "shares" true
            (batch [JObj hello_body; JObj nonce_body]) init_store) = Normal Next.
Proof.
  split; [reflexivity|].
  apply (proj1 (validateLoopSignature_verdicts getError keyFromPublic verify_genuine
                  base64_decode Buffer_from_other stringify_spec keccak256 "shares"
                  true (batch [JObj hello_body; JObj nonce_body]) init_store)
           [JObj hello_body; JObj nonce_body] eq_refl).
  intros p [<- | [<- | []]] s; reflexivity.
Defined.

Lemma validationLoopMiddleware_pass_certifies_witness :
  validationLoopMiddleware validateInput_spec getError metadata_items "shares" true
    (batch [set_data_of "a" "1"]) init_store =
    (Normal Next, MkStore [] 0 [EvValidateInput (set_data_of "a" "1") metadata_items])
  /\ forall s, returns (validateLoopSignature getError keyFromPublic verify
                          base64_decode Buffer_from_other stringify_spec keccak256
                          "shares" true (batch [set_data_of "a" "1"]) s).
Proof.
  split; [reflexivity|].
  exact (proj2 (validationLoopMiddleware_pass_certifies validateInput_spec getError
                  keyFromPublic verify base64_decode Buffer_from_other stringify_spec
                  keccak256 metadata_items "shares" true (batch [set_data_of "a" "1"])
                  init_store _ eq_refl)).
Defined.

Lemma lock_data_refused_signature_witness :
  get (body (request forged_lock_body)) "key" = Normal (JStr lock_key)
  /\ get (body (request forged_lock_body)) "signature" = Normal lock_signature
  /\ get (body (request forged_lock_body)) "data" = Normal stale_lock_data
  /\ keccak256_stringify stringify_spec keccak256 stale_lock_data =
     Normal (keccak256 (canonical stale_lock_data))
  /\ Buffer_from_hex Buffer_from_other (JStr lock_key) = Normal lock_key_bytes
  /\ verify (keccak256 (canonical stale_lock_data)) (SigRaw lock_signature)
       (KeyBuffer lock_key_bytes) = Normal false
  /\ fst (validateLockData getError Date_now ToNumber verify Buffer_from_other
            stringify_spec keccak256 (request forged_lock_body) init_store) =
     Normal (Send 403 (lock_failure (JStr "Invalid Signature"))).
Proof.
  assert (Hv : verify (keccak256 (canonical stale_lock_data)) (SigRaw lock_signature)
                 (KeyBuffer lock_key_bytes) = Normal false)
    by (vm_compute; reflexivity).
  repeat (split; [exact Hv || reflexivity|]).
  exact (f_equal fst
           (lock_data_refused_signature getError Date_now ToNumber verify
              Buffer_from_other stringify_spec keccak256 (request forged_lock_body)
              (JStr lock_key) lock_signature stale_lock_data
              (keccak256 (canonical stale_lock_data)) lock_key_bytes init_store
              eq_refl eq_refl eq_refl eq_refl eq_refl Hv)).
Defined.

Lemma lock_data_freshness_witness :
  get (body (request lock_body)) "key" = Normal (JStr lock_key)
  /\ get (body (request lock_body)) "signature" = Normal lock_signature
  /\ get (body (request lock_body)) "data" = Normal lock_data
  /\ verify (keccak256 (canonical lock_data)) (SigRaw lock_signature)
       (KeyBuffer lock_key_bytes) = Normal true
  /\ get lock_data "timeStamp" = Normal (JNum 1699999990)
  /\ ToNumber (JNum 1699999990) = Some 1699999990
  /\ seconds_of_ms (Date_now 0) - 1699999990 <= 60
  /\ fst (validateLockData getError Date_now ToNumber verify Buffer_from_other
            stringify_spec keccak256 (request lock_body) init_store) = Normal Next.
Proof.
  assert (Hfresh : seconds_of_ms (Date_now 0) - 1699999990 <= 60)
    by (vm_compute; discriminate).
  assert (Hv : verify (keccak256 (canonical lock_data)) (SigRaw lock_signature)
                 (KeyBuffer lock_key_bytes) = Normal true)
    by (vm_compute; reflexivity).
  repeat (split; [exact Hv || exact Hfresh || reflexivity|]).
  destruct (lock_data_freshness getError Date_now ToNumber verify Buffer_from_other
              stringify_spec keccak256 (request lock_body) (JStr lock_key)
              lock_signature lock_data (JNum 1699999990)
              (keccak256 (canonical lock_data)) lock_key_bytes init_store
              eq_refl eq_refl eq_refl eq_refl eq_refl Hv eq_refl)
    as [Hnum _].
  destruct (Hnum 1699999990 eq_refl) as [_ Hpass].
  apply Hpass. exact Hfresh.
Defined.



Lemma seconds_wrap_in_2038_witness :
  2 ^ 31 * 1000 <= 2147483648000 < 2 ^ 32 * 1000
  /\ seconds_of_ms 2147483648000 = - 2147483648
  /\ stale (seconds_of_ms 2147483648000) (Some 0) = false.
Proof.
  assert (Hms : 2 ^ 31 * 1000 <= 2147483648000 < 2 ^ 32 * 1000)
    by (split; [discriminate | reflexivity]).
  assert (H0 : 0 <= 0) by discriminate.
  split; [exact Hms|]. split; [reflexivity|].
  destruct (proj2 (seconds_wrap_in_2038 2147483648000) Hms) as (_ & _ & Hpass).
  exact (Hpass 0 H0).
Defined.

Lemma signature_bytes_after_64_ignored_witness :
  List.length (repeat Byte.x01 32) = 32%nat
  /\ List.length (repeat Byte.x02 32) = 32%nat
  /\ split_signature (repeat Byte.x01 32 ++ repeat Byte.x02 32 ++ [Byte.x03]) =
     SigRS (repeat Byte.x01 32) (repeat Byte.x02 32).
Proof.
  split; [reflexivity|]. split; [reflexivity|].
  exact (proj1 (signature_bytes_after_64_ignored getError keyFromPublic verify
                  base64_decode Buffer_from_other stringify_spec keccak256
                  (repeat Byte.x01 32) (repeat Byte.x02 32) [Byte.x03]
                  eq_refl eq_refl)).
Defined.

Lemma validateNamespace_attaches_table_witness :
  table_of getDBTableName tkey_item = Normal (JStr "tkey")
  /\ validateNamespace getError getDBTableName (MkRequest tkey_item (JObj [])) init_store =
     (Normal (Next,
              MkRequest (JObj [("namespace", JStr "tkey"); ("tableName", JStr "tkey")])
                        (JObj [])),
      init_store).
Proof.
  split; [reflexivity|].
  exact (proj1 (proj1 (validateNamespace_attaches_table getError getDBTableName
                         [("namespace", JStr "tkey"); ("tableName", JStr "users")]
                         (JObj []) init_store)
                 (JStr "tkey") eq_refl)).
Defined.

Lemma items_resolvable : Forall (resolvable getDBTableName) [tkey_item; plain_item].
Proof.
  repeat constructor.
  - exists [("namespace", JStr "tkey"); ("tableName", JStr "users")], (JStr "tkey").
    split; reflexivity.
  - exists [("pub_key_X", pub_key_X)], (JStr "data"). split; reflexivity.
Defined.

Lemma validateNamespaceLoop_attaches_tables_witness :
  get (body (batch [tkey_item; plain_item])) "shares" =
    Normal (JArr [tkey_item; plain_item])
  /\ Forall (resolvable getDBTableName) [tkey_item; plain_item]
  /\ validateNamespaceLoop getError getDBTableName "shares" true
       (batch [tkey_item; plain_item]) init_store =
     (Normal (Next,
              batch [JObj [("namespace", JStr "tkey"); ("tableName", JStr "tkey")];
                     JObj [("pub_key_X", pub_key_X); ("tableName", JStr "data")]]),
      init_store).
Proof.
  split; [reflexivity|]. split; [exact items_resolvable|].
  exact (proj1 (validateNamespaceLoop_attaches_tables getError getDBTableName "shares"
                  true (batch [tkey_item; plain_item]) [tkey_item; plain_item]
                  init_store eq_refl items_resolvable)).
Defined.

Lemma validateNamespaceLoop_first_failure_witness :
  get (body (batch [tkey_item; plain_item; unnamed_item; tkey_item])) "shares" =
    Normal (JArr ([tkey_item; plain_item] ++ unnamed_item :: [tkey_item]))
  /\ Forall (resolvable getDBTableName) [tkey_item; plain_item]
  /\ table_of getDBTableName unnamed_item = Throw (MkExn "Invalid namespace" JUndefined)
  /\ validateNamespaceLoop getError getDBTableName "shares" true
       (batch [tkey_item; plain_item; unnamed_item; tkey_item]) init_store =
     (Normal (Send 500 (failure (JObj [("message", JStr "Invalid namespace")])),
              batch [JObj [("namespace", JStr "tkey"); ("tableName", JStr "tkey")];
                     JObj [("pub_key_X", pub_key_X); ("tableName", JStr "data")];
                     unnamed_item; tkey_item]),
      MkStore [] 0 [EvLogError ""]).
Proof.
  split; [reflexivity|]. split; [exact items_resolvable|]. split; [reflexivity|].
  exact (validateNamespaceLoop_first_failure getError getDBTableName "shares" true
           (batch [tkey_item; plain_item; unnamed_item; tkey_item])
           [tkey_item; plain_item] [tkey_item] unnamed_item
           (MkExn "Invalid namespace" JUndefined) init_store
           eq_refl items_resolvable eq_refl).
Defined.

Lemma bypass_composes_witness :
  In "signature" v2_fields
  /\ has_key "signature" unsigned_body = false
  /\ validateGetOrSetNonceSignature getError keyFromPublic verify base64_decode
       Buffer_from_other stringify_spec keccak256 (request unsigned_body)
       (MkStore [("noValidSig", JBool true)] 0 []) =
     (Normal Next, MkStore [("noValidSig", JBool true)] 0 []).
Proof.
  assert (Hin : In "signature" v2_fields) by (simpl; auto).
  split; [exact Hin|]. split; [reflexivity|].
  destruct (bypass_composes validateInput_spec getError Date_now ToString keyFromPublic
              verify base64_decode Buffer_from_other stringify_spec keccak256
              unsigned_body (JObj []) "signature" init_store Hin eq_refl)
    as (_ & H & _).
  exact H.
Defined.
